(** * music.py: the hybrid song recommender, embedded and checked

    The script builds a user x song table of listen counts with
    [history_df.pivot(...).fillna(0)], computes the cosine similarity of its
    song columns, and recommends songs to a user by adding a user-based and an
    item-based score ([hybrid_recommend_songs]).

    Conventions of the embedding.
    - Labels (user ids, song ids) are integers, [Z].
    - A cell of the table is a number as pandas holds it, [num]: an int64
      when no (user, song) pair of the table is missing, a float64
      otherwise.  Listen counts are the integers of the CSV column.
    - Similarities and scores are IEEE-754 binary64 numbers, Rocq's primitive
      [float], with the kernel's correctly rounded operations.
    - A pandas Series is an ordered list of (label, value) pairs; a DataFrame
      is its row labels, its column labels and the cell at a pair of labels.
      Labels of a frame are unique (pivot guarantees it).
    - A Python call either returns or raises: [outcome].  [print] appends a
      line to the standard output, threaded as state.
    - What the source does not fix is a parameter, [Numpy]: the order in
      which [sort_values] leaves equal values, and the order in which sums
      and products of floats are accumulated.  Statements hold for every
      such library; [reference] is one, used to run examples. *)

From Stdlib Require Import ZArith List Bool String Floats Lia.
From Stdlib Require Import Permutation Sorted DecimalString.
Import ListNotations.

Set Implicit Arguments.

(** ** Exceptions *)

Inductive exn : Type :=
| KeyError
| ValueError.

Inductive outcome (A : Type) : Type :=
| Returned (a : A)
| Raised (e : exn).

Arguments Returned {A} a.
Arguments Raised {A} e.

Definition bind {A B : Type} (m : outcome A) (f : A -> outcome B) : outcome B :=
  match m with
  | Returned a => f a
  | Raised e => Raised e
  end.

Declare Scope py_scope.
Delimit Scope py_scope with py.
Notation "x <- m ;; k" := (bind m (fun x => k))
  (at level 100, m at next level, right associativity) : py_scope.

(** ** Labels *)

Definition mem (x : Z) (l : list Z) : bool := existsb (Z.eqb x) l.

Fixpoint insert_asc (x : Z) (l : list Z) : list Z :=
  match l with
  | [] => [x]
  | h :: t => if (x <=? h)%Z then x :: l else h :: insert_asc x t
  end.

Definition sort_asc (l : list Z) : list Z := fold_right insert_asc [] l.

(** The sorted distinct labels of a column, as pivot and Index.union make
    them. *)
Definition sorted_unique (l : list Z) : list Z := sort_asc (nodup Z.eq_dec l).

(** ** Numbers: int64 and float64 *)

(** int -> float64, correctly rounded. *)
Definition Z2F (z : Z) : float := SF2Prim (binary_normalize prec emax z 0 false).

Inductive num : Type :=
| Int (z : Z)
| Flt (f : float).

(** Two's complement wrap-around of int64 arithmetic. *)
Definition wrap64 (z : Z) : Z := ((z + 2 ^ 63) mod 2 ^ 64 - 2 ^ 63)%Z.

Definition to_float (x : num) : float :=
  match x with
  | Int z => Z2F z
  | Flt f => f
  end.

(** [x > 0]. *)
Definition positive (x : num) : bool :=
  match x with
  | Int z => (0 <? z)%Z
  | Flt f => PrimFloat.ltb PrimFloat.zero f
  end.

(** [x * y]: int64 times int64 wraps, anything else is a float product. *)
Definition num_mul (x y : num) : num :=
  match x, y with
  | Int a, Int b => Int (wrap64 (a * b))
  | _, _ => Flt (PrimFloat.mul (to_float x) (to_float y))
  end.

(** The integers of a list of int64 values; nothing when a float is among
    them. *)
Fixpoint ints (l : list num) : option (list Z) :=
  match l with
  | [] => Some []
  | Int z :: t => option_map (cons z) (ints t)
  | Flt _ :: _ => None
  end.

Definition zsum (l : list Z) : Z := fold_left Z.add l 0%Z.

(** ** Series and DataFrame *)

Definition Series (A : Type) : Type := list (Z * A).

Definition labels {A : Type} (s : Series A) : list Z := map fst s.

Definition series_map {A B : Type} (f : A -> B) (s : Series A) : Series B :=
  map (fun e => (fst e, f (snd e))) s.

Fixpoint lookup {A : Type} (l : Z) (s : Series A) : option A :=
  match s with
  | [] => None
  | (l', v) :: t => if (l =? l')%Z then Some v else lookup l t
  end.

Record DataFrame (A : Type) : Type := mkFrame {
  index : list Z;
  columns : list Z;
  cell : Z -> Z -> A
}.

(** [df.loc[label]]: the row of a label, KeyError when the label is no row. *)
Definition loc {A : Type} (df : DataFrame A) (l : Z) : outcome (Series A) :=
  if mem l (index df)
  then Returned (map (fun c => (c, cell df l c)) (columns df))
  else Raised KeyError.

(** [df.loc[labels]]: the rows of a list of labels in the order asked,
    KeyError when one of them is no row. *)
Definition loc_rows {A : Type} (df : DataFrame A) (ls : list Z)
  : outcome (DataFrame A) :=
  if forallb (fun l => mem l (index df)) ls
  then Returned (mkFrame ls (columns df) (cell df))
  else Raised KeyError.

(** [s.drop(labels)]: KeyError when a label is not in the index. *)
Definition drop {A : Type} (s : Series A) (ls : list Z) : outcome (Series A) :=
  if forallb (fun l => mem l (labels s)) ls
  then Returned (filter (fun e => negb (mem (fst e) ls)) s)
  else Raised KeyError.

(** [s.head(n)] is [s.iloc[:n]]: the first n entries, all but the last -n
    when n is negative. *)
Definition head {A : Type} (n : Z) (s : list A) : list A :=
  if (n <? 0)%Z
  then firstn (List.length s - Z.to_nat (- n)) s
  else firstn (Z.to_nat n) s.

Definition transpose {A : Type} (df : DataFrame A) : DataFrame A :=
  mkFrame (columns df) (index df) (fun i j => cell df j i).

(** ** The interaction matrix: history_df.pivot(...).fillna(0) (line 13) *)

Record ListenEvent : Type := mkEvent {
  ev_user : Z;
  ev_song : Z;
  ev_count : Z
}.

Definition same_key (e1 e2 : ListenEvent) : bool :=
  (ev_user e1 =? ev_user e2)%Z && (ev_song e1 =? ev_song e2)%Z.

Fixpoint has_duplicates (evs : list ListenEvent) : bool :=
  match evs with
  | [] => false
  | e :: rest => existsb (same_key e) rest || has_duplicates rest
  end.

Definition event_count (evs : list ListenEvent) (u s : Z) : option Z :=
  option_map ev_count
    (find (fun e => (ev_user e =? u)%Z && (ev_song e =? s)%Z) evs).

(** Every (user, song) pair of the table has an event: the reshaped values
    keep their int64 dtype.  Otherwise the whole table becomes float64, with
    NaN at the missing pairs. *)
Definition complete (evs : list ListenEvent) : bool :=
  forallb (fun u =>
             forallb (fun s => match event_count evs u s with
                               | Some _ => true
                               | None => false
                               end)
                     (sorted_unique (map ev_song evs)))
          (sorted_unique (map ev_user evs)).

(** The cell of a count in the reshaped table. *)
Definition count_cell (evs : list ListenEvent) (c : Z) : num :=
  if complete evs then Int c else Flt (Z2F c).

(** [DataFrame.pivot] reshapes without aggregating: a (user, song) pair that
    occurs twice makes it raise ValueError ("Index contains duplicate entries,
    cannot reshape").  A pair without an event is a missing value (NaN),
    [None] here. *)
Definition pivot (evs : list ListenEvent) : outcome (DataFrame (option num)) :=
  if has_duplicates evs
  then Raised ValueError
  else Returned (mkFrame (sorted_unique (map ev_user evs))
                         (sorted_unique (map ev_song evs))
                         (fun u s => option_map (count_cell evs)
                                                (event_count evs u s))).

(** [fillna(v)]: the missing values, which only a float64 table has, become
    the float of [v]. *)
Definition fillna (v : Z) (df : DataFrame (option num)) : DataFrame num :=
  mkFrame (index df) (columns df)
          (fun u s => match cell df u s with
                      | Some x => x
                      | None => Flt (Z2F v)
                      end).

(** A float is NaN when it differs from itself. *)
Definition isna (x : float) : bool := negb (PrimFloat.eqb x x).

Definition pivot_table (history_df : list ListenEvent) : outcome (DataFrame num) :=
  (t <- pivot history_df ;; Returned (fillna 0 t))%py.

(** ** The song similarity matrix: cosine_similarity(pivot_table.T) (line 16)

    scikit-learn's [cosine_similarity(X)] converts X to float64, divides each
    row by its Euclidean norm ([normalize]: the norm is the square root of the
    row's sum of squares, and a norm of zero is replaced by one so that an
    all-zero row stays all-zero), and returns the matrix of dot products of the
    normalised rows.  The products are added here from left to right.  The
    BLAS routine behind the call may add them in another order, so the last
    bits of an entry can differ from the value computed here; what is stated
    about entries below concerns entries on which the order has no influence
    (all the products are zeros, or all but one, or they are all equal). *)

Definition dot_rows (a b : list float) : float :=
  fold_left (fun acc xy => PrimFloat.add acc (PrimFloat.mul (fst xy) (snd xy)))
            (combine a b) PrimFloat.zero.

Definition float_row (X : DataFrame num) (i : Z) : list float :=
  map (fun u => to_float (cell X i u)) (columns X).

Definition row_norm (X : DataFrame num) (i : Z) : float :=
  PrimFloat.sqrt (dot_rows (float_row X i) (float_row X i)).

Definition handle_zeros_in_scale (n : float) : float :=
  if PrimFloat.eqb n PrimFloat.zero then PrimFloat.one else n.

Definition normalize (X : DataFrame num) (i : Z) : list float :=
  map (fun x => PrimFloat.div x (handle_zeros_in_scale (row_norm X i)))
      (float_row X i).

Definition cosine_similarity (X : DataFrame num) (i j : Z) : float :=
  dot_rows (normalize X i) (normalize X j).

(** Line 17: the similarity array labelled by the songs on both axes. *)
Definition song_similarity_df (pivot_table : DataFrame num) : DataFrame float :=
  mkFrame (columns pivot_table) (columns pivot_table)
          (cosine_similarity (transpose pivot_table)).

(** The float64 column of a song after [normalize]. *)
Definition normalized_column (pivot_table : DataFrame num) (song : Z) : list float :=
  normalize (transpose pivot_table) song.

(** ** Series of floats *)

Definition notna_part (s : Series float) : Series float :=
  filter (fun e => negb (isna (snd e))) s.

Definition isna_part (s : Series float) : Series float :=
  filter (fun e => isna (snd e)) s.

(** A Series in descending order: every value is at least the next one. *)
Definition descending (s : Series float) : Prop :=
  Sorted (fun a b => PrimFloat.leb (snd b) (snd a) = true) s.

Definition list_eqb (a b : list Z) : bool :=
  if list_eq_dec Z.eq_dec a b then true else false.

Definition get (s : Series float) (l : Z) : float :=
  match lookup l s with
  | Some v => v
  | None => PrimFloat.nan
  end.

(** [a + b] on Series aligns on labels: entry by entry when the two indexes
    are equal, otherwise over the sorted union of the labels, NaN where a
    label is missing on one side. *)
Definition add_series (a b : Series float) : Series float :=
  if list_eqb (labels a) (labels b)
  then map (fun xy => (fst (fst xy), PrimFloat.add (snd (fst xy)) (snd (snd xy))))
           (combine a b)
  else map (fun l => (l, PrimFloat.add (get a l) (get b l)))
           (sorted_unique (labels a ++ labels b)).

(** ** What the libraries decide

    [sort_values(ascending=False)] returns the entries rearranged, the
    numbers in descending order and NaN last; numpy's default sort does not
    say in which order it leaves equal values.  [fsum] is the sum of an array
    of floats and [fdot] the dot product of two, each accumulated in an
    order of numpy's or BLAS's choosing. *)

Class Numpy : Type := mkNumpy {
  sort_values_desc : Series float -> Series float;
  sort_values_perm : forall s, Permutation (sort_values_desc s) s;
  sort_values_descending : forall s, descending (notna_part (sort_values_desc s));
  sort_values_nan_last :
    forall s, sort_values_desc s
              = notna_part (sort_values_desc s) ++ isna_part (sort_values_desc s);
  fsum : list float -> float;
  fdot : list float -> list float -> float
}.

Section Pandas.

Context {NP : Numpy}.

(** The sum of an array of floats as pandas takes it ([skipna]): NaN counts
    as zero. *)
Definition nansum (l : list float) : float :=
  fsum (map (fun x => if isna x then PrimFloat.zero else x) l).

(** [sum] of an array: int64 values add up modulo 2^64, in whatever order;
    floats are left to [nansum]. *)
Definition np_sum (l : list num) : num :=
  match ints l with
  | Some zs => Int (wrap64 (zsum zs))
  | None => Flt (nansum (map to_float l))
  end.

(** [np.dot] of two arrays: int64 products add up modulo 2^64; floats are
    left to [fdot], NaN included. *)
Definition np_dot (a b : list num) : num :=
  match ints a, ints b with
  | Some za, Some zb =>
      Int (wrap64 (zsum (map (fun xy => (fst xy * snd xy)%Z) (combine za zb))))
  | _, _ => Flt (fdot (map to_float a) (map to_float b))
  end.

(** [df.sum(axis=1)] and [df.sum()] on the table. *)
Definition sum_axis1 (df : DataFrame num) : Series num :=
  map (fun u => (u, np_sum (map (cell df u) (columns df)))) (index df).

Definition sum_axis0 (df : DataFrame num) : Series num :=
  map (fun c => (c, np_sum (map (fun u => cell df u c) (index df)))) (columns df).

(** [df.sum()] on a frame of floats. *)
Definition nansum_axis0 (df : DataFrame float) : Series float :=
  map (fun c => (c, nansum (map (fun u => cell df u c) (index df)))) (columns df).

(** [df.dot(v)] for a vector [v] labelled by the columns of [df]. *)
Definition dot (df : DataFrame num) (v : Series num) : Series num :=
  map (fun u => (u, np_dot (map (fun e => cell df u (fst e)) v) (map snd v)))
      (index df).

(** ** hybrid_recommend_songs (lines 19-66) *)

(** The float64 nearest to 1e-9, the literal of line 38. *)
Definition eps : float := 0x1.12e0be826d695p-30%float.

Definition mul_scalar (s : Series num) (k : num) : Series num :=
  series_map (fun x => num_mul x k) s.

(** [s.clip(lower=lo)] is the entrywise maximum with [lo]. *)
Definition clip (lo : float) (s : Series num) : Series float :=
  series_map (fun x => if PrimFloat.ltb (to_float x) lo then lo else to_float x) s.

(** [a / b] on two Series over the same index. *)
Definition truediv (a : Series num) (b : Series float) : Series float :=
  map (fun xy => (fst (fst xy),
                  PrimFloat.div (to_float (snd (fst xy))) (snd (snd xy))))
      (combine a b).

(** Lines 38-40: the other users, ranked by similarity to the user. *)
Definition similar_users (pivot_table : DataFrame num) (user_vector : Series num)
    (user_id : Z) : outcome (list Z) :=
  (let user_similarity :=
     truediv (dot pivot_table user_vector)
             (clip eps (mul_scalar (sum_axis1 pivot_table)
                                   (np_sum (map snd user_vector)))) in
   user_similarity <- drop user_similarity [user_id] ;;
   Returned (labels (sort_values_desc user_similarity)))%py.

(** Line 41 and the sum of line 42: the rows of the ranked users and their
    column sums. *)
Definition user_based_sums (pivot_table : DataFrame num) (user_vector : Series num)
    (user_id : Z) : outcome (Series num) :=
  (similar_users <- similar_users pivot_table user_vector user_id ;;
   similar_users_data <- loc_rows pivot_table similar_users ;;
   Returned (sum_axis0 similar_users_data))%py.

(** The sort of line 42.  The sums are ranked as the float64 values that
    the addition of line 49 reads. *)
Definition user_based_scores (pivot_table : DataFrame num) (user_vector : Series num)
    (user_id : Z) : outcome (Series float) :=
  (sums <- user_based_sums pivot_table user_vector user_id ;;
   Returned (sort_values_desc (series_map to_float sums)))%py.

(** Lines 45 and 52: [user_vector[user_vector > 0].index]. *)
Definition listened_songs (user_vector : Series num) : list Z :=
  labels (filter (fun e => positive (snd e)) user_vector).

(** Line 46. *)
Definition item_based_scores (song_similarity_df : DataFrame float)
    (user_vector : Series num) : outcome (Series float) :=
  (rows <- loc_rows song_similarity_df (listened_songs user_vector) ;;
   Returned (sort_values_desc (nansum_axis0 rows)))%py.

(** Lines 49-53: the combined scores of the songs not yet listened to. *)
Definition recommendations (user_id : Z) (pivot_table : DataFrame num)
    (song_similarity_df : DataFrame float) : outcome (Series float) :=
  (user_vector <- loc pivot_table user_id ;;
   user_based <- user_based_scores pivot_table user_vector user_id ;;
   item_based <- item_based_scores song_similarity_df user_vector ;;
   let combined_scores := add_series user_based item_based in
   let already_listened := listened_songs user_vector in
   drop combined_scores already_listened)%py.

(** Lines 56-59. *)
Definition top_songs (user_id : Z) (pivot_table : DataFrame num)
    (song_similarity_df : DataFrame float) (num_recommendations : Z)
  : outcome (Series float) :=
  (recs <- recommendations user_id pivot_table song_similarity_df ;;
   Returned (head num_recommendations (sort_values_desc recs)))%py.

End Pandas.

Record Song : Type := mkSong {
  song_id : Z;
  title : string;
  artist : string
}.

(** The catalog and the result: a frame of songs, its column names and its
    rows in order.  A frame with rows has the columns song_id, title and
    artist, the fields of [Song]; a catalog file without one of them, for
    which the lookups by column name would raise KeyError, is not
    modelled. *)
Record SongsFrame : Type := mkSongs {
  song_columns : list string;
  song_rows : list Song
}.

(** [pd.DataFrame()]. *)
Definition empty_frame : SongsFrame := mkSongs [] [].

(** [songs_df[songs_df['song_id'].isin(ids)]]: the rows whose id is among
    [ids], in the order of [songs_df]. *)
Definition isin_rows (songs_df : SongsFrame) (ids : list Z) : SongsFrame :=
  mkSongs (song_columns songs_df)
          (filter (fun r => mem (song_id r) ids) (song_rows songs_df)).

Definition stdout : Type := list string.

Definition str_of_Z (z : Z) : string := NilZero.string_of_int (Z.to_int z).

Definition not_found_message (user_id : Z) : string :=
  ("User " ++ str_of_Z user_id ++ " not found in the data.")%string.

Definition default_num_recommendations : Z := 5.

(** ** The windows: display_recommendations and display_user_preferences
    (lines 68-146)

    What a Tk window shows is kept as data: its title and either the rows
    inserted into the Treeview, in order, or the text of the Label.  The
    effects of the script are the lines printed and the windows shown, in
    order. *)

Definition TreeRow : Type := (Z * string * string)%type.

Inductive Widget : Type :=
| Treeview (headings : list string) (rows : list TreeRow)
| Label (text : string).

Record Window : Type := mkWindow {
  win_title : string;
  win_widget : Widget
}.

Record World : Type := mkWorld {
  printed : stdout;
  shown : list Window
}.

Definition song_headings : list string :=
  ["Song ID"; "Song Name"; "Artist"]%string.

(** The loop over [iterrows()]: one Treeview row per row of the frame. *)
Definition tree_rows (df : SongsFrame) : list TreeRow :=
  map (fun row => (song_id row, title row, artist row)) (song_rows df).

(** [df.empty]: an axis of length 0. *)
Definition frame_empty (df : SongsFrame) : bool :=
  match song_columns df, song_rows df with
  | [], _ => true
  | _, [] => true
  | _, _ => false
  end.

Definition show (win : Window) (w : World) : World :=
  mkWorld (printed w) (shown w ++ [win]).

(** Lines 68-102. *)
Definition display_recommendations (recommendations : SongsFrame) (w : World)
  : World :=
  if frame_empty recommendations
  then mkWorld (printed w ++ ["No recommendations found."%string]) (shown w)
  else show (mkWindow "Recommended Songs"
                      (Treeview song_headings (tree_rows recommendations))) w.

(** [cosine_similarity] validates its argument first: an array without a row
    or without a column is refused with ValueError. *)
Definition checked_similarity (pivot_table : DataFrame num)
  : outcome (DataFrame float) :=
  match index pivot_table, columns pivot_table with
  | [], _ => Raised ValueError
  | _, [] => Raised ValueError
  | _, _ => Returned (song_similarity_df pivot_table)
  end.

Section Program.

Context {NP : Numpy}.

(** The whole function: the body under [try], and [except KeyError] printing
    the message and returning an empty frame.  Any other exception
    propagates. *)
Definition hybrid_recommend_songs (user_id : Z) (pivot_table : DataFrame num)
    (song_similarity_df : DataFrame float) (songs_df : SongsFrame)
    (num_recommendations : Z) (out : stdout) : outcome SongsFrame * stdout :=
  match top_songs user_id pivot_table song_similarity_df num_recommendations with
  | Returned top => (Returned (isin_rows songs_df (labels top)), out)
  | Raised KeyError => (Returned empty_frame, out ++ [not_found_message user_id])
  | Raised e => (Raised e, out)
  end.

(** Lines 120-121: the five largest counts of the user's row. *)
Definition top_preferences (user_id : Z) (pivot_table : DataFrame num)
  : outcome (Series float) :=
  (user_vector <- loc pivot_table user_id ;;
   Returned (head 5 (sort_values_desc (series_map to_float user_vector))))%py.

(** Lines 104-146: the window is created before [try]; [except KeyError]
    fills it with a label instead of the tree. *)
Definition display_user_preferences (user_id : Z) (pivot_table : DataFrame num)
    (songs_df : SongsFrame) (w : World) : outcome World :=
  match top_preferences user_id pivot_table with
  | Returned top_songs =>
      let preferences := isin_rows songs_df (labels top_songs) in
      Returned (show (mkWindow "User Preferences"
                                (Treeview song_headings (tree_rows preferences))) w)
  | Raised KeyError =>
      Returned (show (mkWindow "User Preferences"
                                (Label (not_found_message user_id))) w)
  | Raised e => Raised e
  end.

(** ** The script (lines 8-17 and 148-158)

    The three CSV files are read outside; the script is given the listen
    events and the catalog, and the answer to the dialog: a user id, or
    nothing when the dialog is cancelled. *)

Definition script (history_df : list ListenEvent) (songs_df : SongsFrame)
    (input : option Z) : outcome World :=
  (table <- pivot_table history_df ;;
   similarity <- checked_similarity table ;;
   match input with
   | Some user_id =>
       w <- display_user_preferences user_id table songs_df (mkWorld [] []) ;;
       let result :=
         hybrid_recommend_songs user_id table similarity songs_df
                                default_num_recommendations (printed w) in
       recommendations <- fst result ;;
       Returned (display_recommendations recommendations
                                         (mkWorld (snd result) (shown w)))
   | None => Returned (mkWorld ["User ID input was cancelled."%string] [])
   end)%py.

(** ** Names for the statements *)

(** All the users of the table but one. *)
Definition other_users (pivot_table : DataFrame num) (user_id : Z) : list Z :=
  filter (fun u => negb (u =? user_id)%Z) (index pivot_table).

(** The sum, as pandas takes it, of the counts of a song over the users
    listed. *)
Definition neighbour_sum (pivot_table : DataFrame num) (users : list Z) (song : Z)
  : num :=
  np_sum (map (fun u => cell pivot_table u song) users).

(** The songs of the table the user has a positive count for. *)
Definition heard_songs (pivot_table : DataFrame num) (user_id : Z) : list Z :=
  filter (fun s => positive (cell pivot_table user_id s)) (columns pivot_table).

(** The songs of the table the user has no positive count for. *)
Definition unheard_songs (pivot_table : DataFrame num) (user_id : Z) : list Z :=
  filter (fun s => negb (positive (cell pivot_table user_id s)))
         (columns pivot_table).

(** The sum of the similarities of a song to the songs the user heard, NaN
    skipped. *)
Definition item_sum (song_similarity_df : DataFrame float)
    (pivot_table : DataFrame num) (user_id song : Z) : float :=
  nansum (map (fun s => cell song_similarity_df s song)
              (heard_songs pivot_table user_id)).

End Program.




(** ** A reference library

    A stable insertion sort, and sums and dot products taken from left to
    right. *)

Fixpoint insert_desc (e : Z * float) (s : Series float) : Series float :=
  match s with
  | [] => [e]
  | h :: t => if PrimFloat.ltb (snd e) (snd h)
              then h :: insert_desc e t
              else e :: s
  end.

Definition stable_sort_desc (s : Series float) : Series float :=
  fold_right insert_desc [] (notna_part s) ++ isna_part s.

Definition sum_left_to_right (l : list float) : float :=
  fold_left PrimFloat.add l PrimFloat.zero.

(** ** The example of the specification and small datasets *)

Module Examples.

Definition ev (u s c : Z) : ListenEvent := mkEvent u s c.

Definition built (history_df : list ListenEvent) : DataFrame num :=
  match pivot_table history_df with
  | Returned t => t
  | Raised _ => mkFrame [] [] (fun _ _ => Int 0)
  end.

(** users {1,2,3} x songs {1,2,3} (A, B, C):
    user1=[5,0,1], user2=[4,0,2], user3=[0,5,0]. *)
Definition history : list ListenEvent :=
  [ev 1 1 5; ev 1 3 1; ev 2 1 4; ev 2 3 2; ev 3 2 5].

Definition table : DataFrame num := built history.

Definition songs : SongsFrame :=
  mkSongs ["song_id"; "title"; "artist"]%string
          [mkSong 1 "A" "a"; mkSong 2 "B" "b"; mkSong 3 "C" "c"]%string.

(** The catalog reduced to the songs user 1 has listened to. *)
Definition songs_heard_by_1 : SongsFrame :=
  mkSongs ["song_id"; "title"; "artist"]%string
          [mkSong 1 "A" "a"; mkSong 3 "C" "c"]%string.

(** User 1 heard song 10 once; user 2 heard song 20 once and song 30 five
    times. *)
Definition history2 : list ListenEvent := [ev 1 10 1; ev 2 20 1; ev 2 30 5].

Definition table2 : DataFrame num := built history2.

Definition songs2 : SongsFrame :=
  mkSongs ["song_id"; "title"; "artist"]%string
          [mkSong 10 "X" "x"; mkSong 20 "Y" "y"; mkSong 30 "Z" "z"]%string.

(** The same catalog without a row for song 30. *)
Definition songs2_without_30 : SongsFrame :=
  mkSongs ["song_id"; "title"; "artist"]%string
          [mkSong 10 "X" "x"; mkSong 20 "Y" "y"]%string.

(** The same catalog with a second row under the id 30. *)
Definition songs2_with_30_twice : SongsFrame :=
  mkSongs ["song_id"; "title"; "artist"]%string
          [mkSong 10 "X" "x"; mkSong 20 "Y" "y"; mkSong 30 "Z" "z";
           mkSong 30 "Z again" "z"]%string.








End Examples.

(** * Facts about binary64

    From the specification of the primitive operations ([FloatAxioms]). *)

Module Float64.

Lemma SFmul_comm (x y : spec_float) : SF64mul x y = SF64mul y x.
Proof.
  unfold SF64mul, SFmul.
  destruct x as [sx|sx| |sx mx ex], y as [sy|sy| |sy my ey];
    try reflexivity; try (now rewrite xorb_comm).
  now rewrite xorb_comm, Pos.mul_comm, Z.add_comm.
Qed.

Lemma mul_comm (x y : float) : PrimFloat.mul x y = PrimFloat.mul y x.
Proof.
  apply Prim2SF_inj. rewrite !mul_spec. apply SFmul_comm.
Qed.

Lemma SFcompare_antisym (x y : spec_float) :
  SFcompare y x = option_map CompOpp (SFcompare x y).
Proof.
  destruct x as [sx|sx| |sx mx ex], y as [sy|sy| |sy my ey]; simpl;
    try reflexivity;
    try (now destruct sx); try (now destruct sy);
    try (now destruct sx, sy).
  assert (Hm : Pos.compare_cont Eq my mx = CompOpp (Pos.compare_cont Eq mx my))
    by (now rewrite Pos.compare_cont_antisym).
  destruct sx, sy; simpl; try reflexivity;
    rewrite (Z.compare_antisym ey ex), Hm;
    destruct (ey ?= ex)%Z; simpl; try reflexivity;
    now rewrite CompOpp_involutive.
Qed.

Lemma ltb_asym (x y : float) :
  PrimFloat.ltb x y = true -> PrimFloat.ltb y x = false.
Proof.
  rewrite !ltb_spec. unfold SFltb.
  rewrite (SFcompare_antisym (Prim2SF x) (Prim2SF y)).
  now destruct (SFcompare (Prim2SF x) (Prim2SF y)) as [[]|].
Qed.

Lemma notna_comparable (x y : float) :
  isna x = false -> isna y = false ->
  exists c, SFcompare (Prim2SF x) (Prim2SF y) = Some c.
Proof.
  unfold isna. rewrite !eqb_spec. unfold SFeqb.
  destruct (Prim2SF x) as [sx|sx| |sx mx ex], (Prim2SF y) as [sy|sy| |sy my ey];
    simpl; intros Hx Hy; try discriminate; eexists; reflexivity.
Qed.

(** On numbers, "not less than" is "greater than or equal". *)
Lemma not_ltb_leb (x y : float) :
  isna x = false -> isna y = false ->
  PrimFloat.ltb x y = false -> PrimFloat.leb y x = true.
Proof.
  intros Hx Hy. destruct (notna_comparable x y Hx Hy) as [c Hc].
  rewrite ltb_spec, leb_spec. unfold SFltb, SFleb.
  rewrite (SFcompare_antisym (Prim2SF x) (Prim2SF y)), Hc.
  now destruct c.
Qed.

Lemma ltb_leb (x y : float) :
  PrimFloat.ltb x y = true -> PrimFloat.leb x y = true.
Proof.
  rewrite ltb_spec, leb_spec. unfold SFltb, SFleb.
  now destruct (SFcompare (Prim2SF x) (Prim2SF y)) as [[]|].
Qed.

Lemma finite_cases (y : float) :
  PrimFloat.is_finite y = true ->
  (exists s, Prim2SF y = S754_zero s)
  \/ (exists s m e, Prim2SF y = S754_finite s m e).
Proof.
  unfold is_finite, is_nan, is_infinity.
  rewrite !eqb_spec, abs_spec.
  destruct (Prim2SF y) as [s|s| |s m e] eqn:E; simpl.
  - intros _. left. now exists s.
  - intros H. exfalso. destruct s; vm_compute in H; discriminate.
  - intros H. discriminate.
  - intros _. right. now exists s, m, e.
Qed.


Lemma add_zero_signed_zero (z : float) (s : bool) :
  Prim2SF z = S754_zero s -> PrimFloat.add PrimFloat.zero z = PrimFloat.zero.
Proof.
  intros E. apply Prim2SF_inj. rewrite add_spec, E.
  change (Prim2SF PrimFloat.zero) with (S754_zero false).
  now destruct s.
Qed.

End Float64.

(** * Facts about labels, lists and Series *)

Lemma mem_In (x : Z) (l : list Z) : mem x l = true <-> In x l.
Proof.
  unfold mem. rewrite existsb_exists. split.
  - intros [y [Hy E]]. apply Z.eqb_eq in E. now subst.
  - intros H. exists x. split; [assumption | apply Z.eqb_refl].
Qed.

Lemma mem_false (x : Z) (l : list Z) : mem x l = false <-> ~ In x l.
Proof.
  rewrite <- mem_In. now destruct (mem x l).
Qed.

Lemma forallb_mem_incl (ls l : list Z) :
  forallb (fun x => mem x l) ls = true <-> incl ls l.
Proof.
  rewrite forallb_forall. unfold incl.
  split; intros H x Hx; apply mem_In; now apply H.
Qed.

Lemma insert_asc_perm (x : Z) (l : list Z) : Permutation (insert_asc x l) (x :: l).
Proof.
  induction l as [|h t IH]; simpl.
  - reflexivity.
  - destruct (x <=? h)%Z.
    + reflexivity.
    + rewrite IH. apply perm_swap.
Qed.

Lemma sort_asc_perm (l : list Z) : Permutation (sort_asc l) l.
Proof.
  induction l as [|h t IH]; simpl.
  - reflexivity.
  - rewrite insert_asc_perm. now constructor.
Qed.

Lemma sorted_unique_In (x : Z) (l : list Z) : In x (sorted_unique l) <-> In x l.
Proof.
  unfold sorted_unique. split; intros H.
  - apply (nodup_In Z.eq_dec). now apply (Permutation_in _ (sort_asc_perm _)).
  - apply (Permutation_in _ (Permutation_sym (sort_asc_perm _))).
    now apply nodup_In.
Qed.

Lemma firstn_incl {A : Type} (n : nat) (l : list A) : incl (firstn n l) l.
Proof.
  intros x H. rewrite <- (firstn_skipn n l). apply in_or_app. now left.
Qed.

Lemma head_incl {A : Type} (n : Z) (s : list A) : incl (head n s) s.
Proof.
  unfold head. destruct (n <? 0)%Z; apply firstn_incl.
Qed.

Lemma head_length {A : Type} (n : Z) (s : list A) :
  (0 <= n)%Z -> (Z.of_nat (List.length (head n s)) <= n)%Z.
Proof.
  intros Hn. unfold head.
  destruct (n <? 0)%Z eqn:E; [apply Z.ltb_lt in E; lia|].
  pose proof (firstn_le_length (Z.to_nat n) s). lia.
Qed.

Lemma filter_all {A : Type} (p : A -> bool) (l : list A) :
  (forall x, In x l -> p x = true) -> filter p l = l.
Proof.
  induction l as [|h t IH]; simpl; intros H; [reflexivity|].
  rewrite (H h) by now left. f_equal. apply IH. intros x Hx. apply H. now right.
Qed.

Lemma filter_none {A : Type} (p : A -> bool) (l : list A) :
  (forall x, In x l -> p x = false) -> filter p l = [].
Proof.
  induction l as [|h t IH]; simpl; intros H; [reflexivity|].
  rewrite (H h) by now left. apply IH. intros x Hx. apply H. now right.
Qed.

Lemma filter_split_perm {A : Type} (f : A -> bool) (l : list A) :
  Permutation (filter (fun x => negb (f x)) l ++ filter f l) l.
Proof.
  induction l as [|h t IH]; simpl.
  - reflexivity.
  - destruct (f h); simpl.
    + rewrite <- Permutation_middle. now constructor.
    + now constructor.
Qed.

(** * The reference library is a library *)

Lemma insert_desc_perm (e : Z * float) (s : Series float) :
  Permutation (insert_desc e s) (e :: s).
Proof.
  induction s as [|h t IH]; simpl.
  - reflexivity.
  - destruct (PrimFloat.ltb (snd e) (snd h)).
    + rewrite IH. apply perm_swap.
    + reflexivity.
Qed.

Lemma insertion_perm (s : Series float) :
  Permutation (fold_right insert_desc [] s) s.
Proof.
  induction s as [|h t IH]; simpl.
  - reflexivity.
  - rewrite insert_desc_perm. now constructor.
Qed.

Lemma stable_sort_desc_perm (s : Series float) :
  Permutation (stable_sort_desc s) s.
Proof.
  unfold stable_sort_desc, notna_part, isna_part.
  rewrite insertion_perm.
  apply (filter_split_perm (fun e => isna (snd e))).
Qed.

Lemma HdRel_insert_desc (h e : Z * float) (t : Series float) :
  PrimFloat.leb (snd e) (snd h) = true ->
  HdRel (fun a b => PrimFloat.leb (snd b) (snd a) = true) h t ->
  HdRel (fun a b => PrimFloat.leb (snd b) (snd a) = true) h (insert_desc e t).
Proof.
  intros He Ht. destruct t as [|h' t']; simpl.
  - now constructor.
  - destruct (PrimFloat.ltb (snd e) (snd h')).
    + constructor. now inversion Ht.
    + now constructor.
Qed.

Lemma insert_desc_descending (e : Z * float) (s : Series float) :
  isna (snd e) = false ->
  Forall (fun x => isna (snd x) = false) s ->
  descending s -> descending (insert_desc e s).
Proof.
  unfold descending. intros He Hs Hsorted.
  induction s as [|h t IH]; simpl.
  - repeat constructor.
  - inversion Hs as [|x xs Hh Ht]; subst.
    inversion Hsorted as [|x xs Hst Hhd]; subst.
    destruct (PrimFloat.ltb (snd e) (snd h)) eqn:E.
    + constructor; [now apply IH|].
      apply HdRel_insert_desc; [now apply Float64.ltb_leb | assumption].
    + constructor; [assumption|]. constructor.
      now apply Float64.not_ltb_leb.
Qed.

Lemma insertion_descending (s : Series float) :
  Forall (fun x => isna (snd x) = false) s ->
  descending (fold_right insert_desc [] s).
Proof.
  induction s as [|h t IH]; simpl; intros H.
  - constructor.
  - inversion H as [|x xs Hh Ht]; subst.
    apply insert_desc_descending; [assumption| |now apply IH].
    apply Forall_forall. intros x Hx.
    apply (Permutation_in _ (insertion_perm t)) in Hx.
    revert x Hx. now apply Forall_forall.
Qed.
Lemma notna_of_isna_part (s : Series float) : notna_part (isna_part s) = [].
Proof.
  unfold notna_part, isna_part. apply filter_none.
  intros x Hx. apply filter_In in Hx. destruct Hx as [_ Hx]. now rewrite Hx.
Qed.

Lemma isna_of_isna_part (s : Series float) : isna_part (isna_part s) = isna_part s.
Proof.
  unfold isna_part. apply filter_all.
  intros x Hx. now apply filter_In in Hx.
Qed.

Lemma notna_of_insertion (s : Series float) :
  notna_part (fold_right insert_desc [] (notna_part s))
  = fold_right insert_desc [] (notna_part s).
Proof.
  unfold notna_part at 1. apply filter_all. intros x Hx.
  apply (Permutation_in _ (insertion_perm _)) in Hx.
  unfold notna_part in Hx. now apply filter_In in Hx.
Qed.

Lemma isna_of_insertion (s : Series float) :
  isna_part (fold_right insert_desc [] (notna_part s)) = [].
Proof.
  unfold isna_part at 1. apply filter_none. intros x Hx.
  apply (Permutation_in _ (insertion_perm _)) in Hx.
  unfold notna_part in Hx. apply filter_In in Hx. destruct Hx as [_ Hx].
  now destruct (isna (snd x)).
Qed.

(** The numbers of a Series sorted by insertion are its sorted prefix. *)
Lemma notna_part_stable_sort (s : Series float) :
  notna_part (stable_sort_desc s) = fold_right insert_desc [] (notna_part s).
Proof.
  unfold stable_sort_desc.
  unfold notna_part at 1. rewrite filter_app.
  fold (notna_part (fold_right insert_desc [] (notna_part s))).
  fold (notna_part (isna_part s)).
  now rewrite notna_of_insertion, notna_of_isna_part, app_nil_r.
Qed.

Lemma isna_part_stable_sort (s : Series float) :
  isna_part (stable_sort_desc s) = isna_part s.
Proof.
  unfold stable_sort_desc.
  unfold isna_part at 1. rewrite filter_app.
  fold (isna_part (fold_right insert_desc [] (notna_part s))).
  fold (isna_part (isna_part s)).
  now rewrite isna_of_insertion, isna_of_isna_part.
Qed.

Lemma stable_sort_desc_descending (s : Series float) :
  descending (notna_part (stable_sort_desc s)).
Proof.
  rewrite notna_part_stable_sort. apply insertion_descending.
  apply Forall_forall. intros x Hx. unfold notna_part in Hx.
  apply filter_In in Hx. destruct Hx as [_ Hx].
  now destruct (isna (snd x)).
Qed.

Lemma stable_sort_desc_nan_last (s : Series float) :
  stable_sort_desc s
  = notna_part (stable_sort_desc s) ++ isna_part (stable_sort_desc s).
Proof.
  now rewrite notna_part_stable_sort, isna_part_stable_sort.
Qed.

#[export] Instance reference : Numpy :=
  @mkNumpy stable_sort_desc stable_sort_desc_perm stable_sort_desc_descending
           stable_sort_desc_nan_last sum_left_to_right dot_rows.

Lemma labels_perm {A : Type} (s t : Series A) :
  Permutation s t -> Permutation (labels s) (labels t).
Proof.
  apply Permutation_map.
Qed.

Lemma labels_series_map {A B : Type} (f : A -> B) (s : Series A) :
  labels (series_map f s) = labels s.
Proof.
  unfold labels, series_map. rewrite map_map. reflexivity.
Qed.

Lemma drop_Returned {A : Type} (s r : Series A) (ls : list Z) :
  drop s ls = Returned r ->
  incl ls (labels s) /\ r = filter (fun e => negb (mem (fst e) ls)) s.
Proof.
  unfold drop.
  destruct (forallb (fun l => mem l (labels s)) ls) eqn:E; [|discriminate].
  intros H. injection H as <-. split; [|reflexivity].
  now apply forallb_mem_incl.
Qed.

Lemma drop_incl {A : Type} (s : Series A) (ls : list Z) :
  incl ls (labels s) ->
  drop s ls = Returned (filter (fun e => negb (mem (fst e) ls)) s).
Proof.
  intros H. unfold drop.
  now rewrite (proj2 (forallb_mem_incl ls (labels s)) H).
Qed.

Lemma loc_Returned {A : Type} (df : DataFrame A) (l : Z) (row : Series A) :
  loc df l = Returned row ->
  In l (index df) /\ row = map (fun c => (c, cell df l c)) (columns df).
Proof.
  unfold loc. destruct (mem l (index df)) eqn:E; [|discriminate].
  intros H. injection H as <-. split; [now apply mem_In | reflexivity].
Qed.

Lemma loc_known {A : Type} (df : DataFrame A) (l : Z) :
  In l (index df) ->
  loc df l = Returned (map (fun c => (c, cell df l c)) (columns df)).
Proof.
  intros H. unfold loc. now rewrite (proj2 (mem_In l (index df)) H).
Qed.

Lemma loc_unknown {A : Type} (df : DataFrame A) (l : Z) :
  ~ In l (index df) -> loc df l = Raised KeyError.
Proof.
  intros H. unfold loc. now rewrite (proj2 (mem_false l (index df)) H).
Qed.

Lemma loc_rows_incl {A : Type} (df : DataFrame A) (ls : list Z) :
  incl ls (index df) ->
  loc_rows df ls = Returned (mkFrame ls (columns df) (cell df)).
Proof.
  intros H. unfold loc_rows.
  now rewrite (proj2 (forallb_mem_incl ls (index df)) H).
Qed.




(** * The interaction matrix builder *)

Lemma has_duplicates_app (l1 l2 : list ListenEvent) :
  has_duplicates l2 = true -> has_duplicates (l1 ++ l2) = true.
Proof.
  intros H. induction l1 as [|h t IH]; simpl.
  - assumption.
  - rewrite IH. apply orb_true_r.
Qed.

Lemma has_duplicates_pair (e1 e2 : ListenEvent) (l2 l3 : list ListenEvent) :
  ev_user e1 = ev_user e2 -> ev_song e1 = ev_song e2 ->
  has_duplicates (e1 :: l2 ++ e2 :: l3) = true.
Proof.
  intros Hu Hs. simpl. apply orb_true_iff. left.
  apply existsb_exists. exists e2. split.
  - apply in_or_app. right. now left.
  - unfold same_key. now rewrite Hu, Hs, !Z.eqb_refl.
Qed.

(** Without a duplicated pair every event's count is the cell at its pair. *)
Lemma event_count_unique (evs : list ListenEvent) (e : ListenEvent) :
  has_duplicates evs = false -> In e evs ->
  event_count evs (ev_user e) (ev_song e) = Some (ev_count e).
Proof.
  unfold event_count. induction evs as [|h t IH]; intros Hdup Hin.
  - destruct Hin.
  - simpl in Hdup. apply orb_false_iff in Hdup. destruct Hdup as [Hh Ht].
    simpl.
    destruct ((ev_user h =? ev_user e)%Z && (ev_song h =? ev_song e)%Z) eqn:K.
    + destruct Hin as [->|Hin]; [reflexivity|].
      exfalso. rewrite <- not_true_iff_false in Hh. apply Hh.
      apply existsb_exists. now exists e.
    + destruct Hin as [->|Hin]; [|now apply IH].
      now rewrite !Z.eqb_refl in K.
Qed.

(** C2, as the code has it: [pivot] does not aggregate.  Whenever two events
    of the sequence carry the same (user, song) pair, whatever their counts,
    building the table raises ValueError and no table is built. *)
Theorem pivot_rejects_duplicates
    (l1 l2 l3 : list ListenEvent) (e1 e2 : ListenEvent) :
  ev_user e1 = ev_user e2 -> ev_song e1 = ev_song e2 ->
  pivot_table (l1 ++ e1 :: l2 ++ e2 :: l3) = Raised ValueError.
Proof.
  intros Hu Hs. unfold pivot_table, pivot.
  rewrite has_duplicates_app by now apply has_duplicates_pair.
  reflexivity.
Qed.

Lemma pivot_rejects_duplicates_witness :
  pivot_table ([] ++ Examples.ev 1 10 2 :: [] ++ Examples.ev 1 10 3 :: [])
  = Raised ValueError.
Proof.
  apply (@pivot_rejects_duplicates [] [] [] (Examples.ev 1 10 2)
                                   (Examples.ev 1 10 3)); reflexivity.
Defined.

(** C2 as stated fails: the events (1, 10, 2) and (1, 10, 3) build no table
    with a cell of 5, be it the integer or the float; the call raises. *)
Lemma duplicate_counts_2_3_not_summed :
  pivot_table [Examples.ev 1 10 2; Examples.ev 1 10 3] = Raised ValueError
  /\ ~ (exists t, pivot_table [Examples.ev 1 10 2; Examples.ev 1 10 3] = Returned t
                  /\ (cell t 1 10 = Int 5 \/ cell t 1 10 = Flt (Z2F 5))).
Proof.
  split.
  - reflexivity.
  - intros [t [H _]]. discriminate H.
Qed.

(** * The recommender *)

(** The scenario of the specification: for user 1 and k = 2 the songs heard
    are A and C, the user-based sums are A:4, B:5, C:2, the similarity of A
    and B is 0 and that of A and C is positive, and the result is [B]. *)
Example specification_scenario :
  let sim := song_similarity_df Examples.table in
  let row := [(1, Flt (Z2F 5)); (2, Flt (Z2F 0)); (3, Flt (Z2F 1))]%Z in
  loc Examples.table 1 = Returned row
  /\ listened_songs row = [1; 3]%Z
  /\ user_based_sums Examples.table row 1
     = Returned [(1, Flt (Z2F 4)); (2, Flt (Z2F 5)); (3, Flt (Z2F 2))]%Z
  /\ cell sim 1 2 = PrimFloat.zero
  /\ PrimFloat.ltb PrimFloat.zero (cell sim 1 3) = true
  /\ fst (hybrid_recommend_songs 1 Examples.table sim Examples.songs 2 [])
     = Returned (mkSongs (song_columns Examples.songs) [mkSong 2 "B" "b"]).
Proof.
  cbv zeta. repeat split; vm_compute; reflexivity.
Qed.

(** ** Unknown users *)

(** C1, as the code has it: for a user id that is no row of the table, the
    lookup's KeyError is caught; the function prints
    "User <id> not found in the data." and returns the empty frame
    [pd.DataFrame()].  Nothing is raised. *)
Theorem unknown_user_returns_empty_frame {NP : Numpy}
    (user_id : Z) (pivot_table : DataFrame num) (song_similarity_df : DataFrame float)
    (songs_df : SongsFrame) (k : Z) (out : stdout) :
  ~ In user_id (index pivot_table) ->
  hybrid_recommend_songs user_id pivot_table song_similarity_df songs_df k out
  = (Returned empty_frame, out ++ [not_found_message user_id]).
Proof.
  intros H. unfold hybrid_recommend_songs, top_songs, recommendations.
  rewrite (loc_unknown _ _ H). reflexivity.
Qed.

Lemma unknown_user_returns_empty_frame_witness :
  hybrid_recommend_songs 9 Examples.table (song_similarity_df Examples.table)
                         Examples.songs 5 []
  = (Returned empty_frame, [] ++ [not_found_message 9]).
Proof.
  apply (@unknown_user_returns_empty_frame reference 9 Examples.table
           (song_similarity_df Examples.table) Examples.songs 5 []).
  vm_compute. intros [H|[H|[H|[]]]]; discriminate H.
Defined.

(** C1 as stated fails: user 9 is no row of the example table, yet the call
    returns, and what it returns has no rows, as does the result of the
    known user 1 asked for zero songs. *)
Lemma unknown_user_does_not_raise :
  let sim := song_similarity_df Examples.table in
  let unknown := hybrid_recommend_songs 9 Examples.table sim Examples.songs 5 [] in
  let known := hybrid_recommend_songs 1 Examples.table sim Examples.songs 0 [] in
  ~ In 9%Z (index Examples.table)
  /\ fst unknown = Returned empty_frame
  /\ (forall e, fst unknown <> Raised e)
  /\ (exists f, fst known = Returned f /\ song_rows f = song_rows empty_frame).
Proof.
  repeat split.
  - vm_compute. intros [H|[H|[H|[]]]]; discriminate H.
  - intros e H. vm_compute in H. discriminate H.
  - eexists. split; vm_compute; reflexivity.
Qed.

(** ** What a returned result is made of *)

Lemma hybrid_Returned {NP : Numpy}
    (user_id : Z) (pivot_table : DataFrame num) (song_similarity_df : DataFrame float)
    (songs_df : SongsFrame) (k : Z) (out : stdout) (frame : SongsFrame) :
  fst (hybrid_recommend_songs user_id pivot_table song_similarity_df songs_df k out)
  = Returned frame ->
  (exists top, top_songs user_id pivot_table song_similarity_df k = Returned top
               /\ frame = isin_rows songs_df (labels top))
  \/ (top_songs user_id pivot_table song_similarity_df k = Raised KeyError
      /\ frame = empty_frame).
Proof.
  unfold hybrid_recommend_songs.
  destruct (top_songs user_id pivot_table song_similarity_df k) as [top|[|]];
    simpl; intros H; try discriminate H; injection H as <-.
  - left. now exists top.
  - now right.
Qed.

Lemma recommendations_Returned {NP : Numpy}
    (user_id : Z) (pivot_table : DataFrame num) (song_similarity_df : DataFrame float)
    (recs : Series float) :
  recommendations user_id pivot_table song_similarity_df = Returned recs ->
  exists user_vector user_based item_based,
    loc pivot_table user_id = Returned user_vector
    /\ user_based_scores pivot_table user_vector user_id = Returned user_based
    /\ item_based_scores song_similarity_df user_vector = Returned item_based
    /\ drop (add_series user_based item_based) (listened_songs user_vector)
       = Returned recs.
Proof.
  unfold recommendations.
  destruct (loc pivot_table user_id) as [uv|] eqn:E1; simpl; [|discriminate].
  destruct (user_based_scores pivot_table uv user_id) as [ub|] eqn:E2; simpl;
    [|discriminate].
  destruct (item_based_scores song_similarity_df uv) as [ib|] eqn:E3; simpl;
    [|discriminate].
  intros H. now exists uv, ub, ib.
Qed.

Lemma top_songs_Returned {NP : Numpy}
    (user_id : Z) (pivot_table : DataFrame num) (song_similarity_df : DataFrame float)
    (k : Z) (top : Series float) :
  top_songs user_id pivot_table song_similarity_df k = Returned top ->
  exists recs,
    recommendations user_id pivot_table song_similarity_df = Returned recs
    /\ top = head k (sort_values_desc recs).
Proof.
  unfold top_songs.
  destruct (recommendations user_id pivot_table song_similarity_df) as [recs|];
    simpl; [|discriminate].
  intros H. injection H as <-. now exists recs.
Qed.

Lemma in_labels {A : Type} (l : Z) (s : Series A) :
  In l (labels s) <-> exists v, In (l, v) s.
Proof.
  unfold labels. rewrite in_map_iff. split.
  - intros [[l' v] [E H]]. simpl in E. subst. now exists v.
  - intros [v H]. now exists (l, v).
Qed.

(** The labels that survive sorting and [head] are labels of the Series. *)
Lemma top_labels_incl {NP : Numpy} (k : Z) (recs : Series float) :
  incl (labels (head k (sort_values_desc recs))) (labels recs).
Proof.
  intros l H. apply in_labels in H. destruct H as [v H].
  apply head_incl in H.
  apply (Permutation_in _ (sort_values_perm recs)) in H.
  apply in_labels. now exists v.
Qed.

Lemma listened_songs_In (user_vector : Series num) (l : Z) :
  In l (listened_songs user_vector)
  <-> exists c, In (l, c) user_vector /\ positive c = true.
Proof.
  unfold listened_songs. rewrite in_labels. split.
  - intros [c H]. apply filter_In in H. destruct H as [H Hc].
    exists c. now split.
  - intros [c [H Hc]]. exists c. apply filter_In. now split.
Qed.

Lemma top_songs_not_listened {NP : Numpy}
    (user_id : Z) (pivot_table : DataFrame num) (song_similarity_df : DataFrame float)
    (k : Z) (top : Series float) (user_vector : Series num) :
  loc pivot_table user_id = Returned user_vector ->
  top_songs user_id pivot_table song_similarity_df k = Returned top ->
  forall l, In l (labels top) -> ~ In l (listened_songs user_vector).
Proof.
  intros Hloc Htop l Hl.
  apply top_songs_Returned in Htop. destruct Htop as [recs [Hrecs ->]].
  apply recommendations_Returned in Hrecs.
  destruct Hrecs as [uv [ub [ib [Huv [_ [_ Hdrop]]]]]].
  rewrite Hloc in Huv. injection Huv as <-.
  apply drop_Returned in Hdrop. destruct Hdrop as [_ ->].
  apply top_labels_incl in Hl. apply in_labels in Hl. destruct Hl as [v Hv].
  apply filter_In in Hv. destruct Hv as [_ Hv]. simpl in Hv.
  apply mem_false. now destruct (mem l (listened_songs user_vector)).
Qed.

(** ** Songs already listened to *)

(** C4: a returned song is never one the target user has a positive count
    for: the count [c] of the user's row at a returned song has [c > 0]
    false (an integer count is at most 0). *)
Theorem recommend_excludes_listened {NP : Numpy}
    (user_id : Z) (pivot_table : DataFrame num) (song_similarity_df : DataFrame float)
    (songs_df : SongsFrame) (k : Z) (out : stdout)
    (user_vector : Series num) (frame : SongsFrame) (r : Song) (c : num) :
  loc pivot_table user_id = Returned user_vector ->
  fst (hybrid_recommend_songs user_id pivot_table song_similarity_df songs_df k out)
  = Returned frame ->
  In r (song_rows frame) ->
  In (song_id r, c) user_vector ->
  positive c = false
  /\ forall z, c = Int z -> (z <= 0)%Z.
Proof.
  intros Hloc Hres Hr Hc.
  apply hybrid_Returned in Hres.
  destruct Hres as [[top [Htop ->]]|[_ ->]]; [|destruct Hr].
  simpl in Hr. apply filter_In in Hr. destruct Hr as [_ Hr].
  apply mem_In in Hr.
  assert (Hpos : positive c = false).
  { destruct (positive c) eqn:E; [|reflexivity].
    exfalso. eapply top_songs_not_listened; eauto.
    apply listened_songs_In. now exists c. }
  split; [assumption|].
  intros z ->. simpl in Hpos. now apply Z.ltb_ge.
Qed.

Lemma recommend_excludes_listened_witness :
  loc Examples.table 1
  = Returned [(1, Flt (Z2F 5)); (2, Flt (Z2F 0)); (3, Flt (Z2F 1))]%Z
  /\ positive (Flt (Z2F 0)) = false.
Proof.
  split; [vm_compute; reflexivity|].
  apply (@recommend_excludes_listened reference 1 Examples.table
           (song_similarity_df Examples.table) Examples.songs 2 []
           [(1, Flt (Z2F 5)); (2, Flt (Z2F 0)); (3, Flt (Z2F 1))]%Z
           (mkSongs (song_columns Examples.songs) [mkSong 2 "B" "b"])
           (mkSong 2 "B" "b") (Flt (Z2F 0))).
  - vm_compute. reflexivity.
  - vm_compute. reflexivity.
  - simpl. left. reflexivity.
  - simpl. right. left. reflexivity.
Defined.

(** ** The user-based score *)

Lemma labels_truediv (a : Series num) (b : Series float) :
  List.length a = List.length b -> labels (truediv a b) = labels a.
Proof.
  revert b. induction a as [|x a IH]; intros [|y b] H; simpl in *;
    try discriminate; try reflexivity.
  f_equal. apply IH. now injection H.
Qed.

Lemma labels_filter_fst {A : Type} (p : Z -> bool) (s : Series A) :
  labels (filter (fun e => p (fst e)) s) = filter p (labels s).
Proof.
  induction s as [|[l v] t IH]; simpl; [reflexivity|].
  destruct (p l); simpl; now rewrite IH.
Qed.

Lemma user_similarity_labels {NP : Numpy}
    (pivot_table : DataFrame num) (user_vector : Series num) :
  labels (truediv (dot pivot_table user_vector)
                  (clip eps (mul_scalar (sum_axis1 pivot_table)
                                        (np_sum (map snd user_vector)))))
  = index pivot_table.
Proof.
  rewrite labels_truediv.
  - unfold labels, dot. rewrite map_map. simpl. apply map_id.
  - unfold clip, mul_scalar, series_map, sum_axis1, dot.
    now rewrite !length_map.
Qed.

(** Whatever the similarities are, the ranking lists every other user
    once. *)
Lemma similar_users_known {NP : Numpy}
    (pivot_table : DataFrame num) (user_vector : Series num) (user_id : Z) :
  In user_id (index pivot_table) ->
  exists ranked,
    similar_users pivot_table user_vector user_id = Returned ranked
    /\ Permutation ranked (other_users pivot_table user_id).
Proof.
  intros Hin. unfold similar_users.
  set (usim := truediv _ _).
  assert (Hlab : labels usim = index pivot_table)
    by apply user_similarity_labels.
  rewrite drop_incl.
  2:{ intros x [<-|[]]. now rewrite Hlab. }
  simpl.
  set (rest := filter _ usim).
  exists (labels (sort_values_desc rest)). split; [reflexivity|].
  rewrite (labels_perm (sort_values_perm rest)).
  unfold rest.
  pose proof (labels_filter_fst
                (fun l => negb ((l =? user_id)%Z || false)) usim) as Hf.
  cbv beta in Hf. rewrite Hf, Hlab.
  unfold other_users.
  erewrite filter_ext; [reflexivity|].
  intros u. simpl. now rewrite orb_false_r.
Qed.

Lemma user_based_sums_known {NP : Numpy}
    (pivot_table : DataFrame num) (user_vector : Series num) (user_id : Z) :
  In user_id (index pivot_table) ->
  exists ranked,
    similar_users pivot_table user_vector user_id = Returned ranked
    /\ Permutation ranked (other_users pivot_table user_id)
    /\ user_based_sums pivot_table user_vector user_id
       = Returned (map (fun song => (song, neighbour_sum pivot_table ranked song))
                       (columns pivot_table)).
Proof.
  intros Hin.
  destruct (@similar_users_known _ pivot_table user_vector user_id Hin)
    as [ranked [Hs Hp]].
  exists ranked. split; [assumption|]. split; [assumption|].
  unfold user_based_sums. rewrite Hs. simpl.
  rewrite loc_rows_incl.
  - reflexivity.
  - intros u Hu. apply (Permutation_in _ Hp) in Hu.
    unfold other_users in Hu. now apply filter_In in Hu.
Qed.







(** ** How many songs come back *)

(** Selecting rows of a catalog with distinct ids leaves distinct ids. *)
Lemma selected_ids_distinct (keep : Song -> bool) (rows : list Song) :
  NoDup (map song_id rows) -> NoDup (map song_id (filter keep rows)).
Proof.
  intros Hnd. induction rows as [|r rows IH]; [constructor|].
  simpl in Hnd. apply NoDup_cons_iff in Hnd. destruct Hnd as [Hnew Hrest].
  simpl. destruct (keep r); simpl; [|now apply IH].
  apply NoDup_cons_iff. split; [|now apply IH].
  intros Hin. apply Hnew. apply in_map_iff in Hin.
  destruct Hin as [r' [E Hr']]. apply filter_In in Hr'.
  apply in_map_iff. exists r'. now split.
Qed.

Lemma isin_rows_length (songs_df : SongsFrame) (ids : list Z) :
  NoDup (map song_id (song_rows songs_df)) ->
  List.length (song_rows (isin_rows songs_df ids)) <= List.length ids.
Proof.
  intros Hnd. simpl.
  rewrite <- (length_map song_id).
  apply NoDup_incl_length.
  - now apply selected_ids_distinct.
  - intros x Hx. apply in_map_iff in Hx. destruct Hx as [r [<- Hr]].
    apply filter_In in Hr. now apply mem_In.
Qed.

Lemma labels_zip_add (a b : Series float) :
  List.length a = List.length b ->
  labels (map (fun xy => (fst (fst xy), PrimFloat.add (snd (fst xy)) (snd (snd xy))))
              (combine a b))
  = labels a.
Proof.
  revert b. induction a as [|x a IH]; intros [|y b] H; simpl in *;
    try discriminate; try reflexivity.
  f_equal. apply IH. now injection H.
Qed.

(** Every label of the left operand is a label of the sum. *)
Lemma labels_add_series_l (a b : Series float) :
  incl (labels a) (labels (add_series a b)).
Proof.
  unfold add_series, list_eqb.
  destruct (list_eq_dec Z.eq_dec (labels a) (labels b)) as [E|_].
  - rewrite labels_zip_add; [apply incl_refl|].
    unfold labels in E. apply (f_equal (@List.length Z)) in E.
    now rewrite !length_map in E.
  - intros l Hl. unfold labels at 1. rewrite map_map. simpl. rewrite map_id.
    apply sorted_unique_In. apply in_or_app. now left.
Qed.

Lemma listened_songs_columns (pivot_table : DataFrame num) (user_id l : Z) :
  In l (listened_songs (map (fun c => (c, cell pivot_table user_id c))
                            (columns pivot_table)))
  <-> In l (columns pivot_table) /\ positive (cell pivot_table user_id l) = true.
Proof.
  rewrite listened_songs_In. split.
  - intros [c [H Hc]]. apply in_map_iff in H. destruct H as [l' [E Hl]].
    injection E as -> <-. now split.
  - intros [Hl Hc]. exists (cell pivot_table user_id l). split; [|assumption].
    apply in_map_iff. now exists l.
Qed.

(** For a known user and a similarity frame that has a row for every song of
    the table, the body runs to the end: no lookup fails. *)
Lemma recommendations_known {NP : Numpy}
    (user_id : Z) (pivot_table : DataFrame num) (song_similarity_df : DataFrame float) :
  In user_id (index pivot_table) ->
  incl (columns pivot_table) (index song_similarity_df) ->
  exists recs,
    recommendations user_id pivot_table song_similarity_df = Returned recs.
Proof.
  intros Hin Hsim. unfold recommendations.
  rewrite (loc_known _ _ Hin). simpl.
  set (uv := map _ (columns pivot_table)).
  destruct (@user_based_sums_known _ pivot_table uv user_id Hin)
    as [ranked [_ [_ Hsums]]].
  unfold user_based_scores. rewrite Hsums. simpl.
  assert (Hcols : incl (listened_songs uv) (columns pivot_table)).
  { intros l Hl. now apply listened_songs_columns in Hl. }
  unfold item_based_scores. rewrite loc_rows_incl.
  2:{ intros l Hl. apply Hsim. now apply Hcols. }
  simpl. rewrite drop_incl.
  - eexists. reflexivity.
  - intros l Hl. apply labels_add_series_l.
    apply (Permutation_in _ (Permutation_sym
             (labels_perm (sort_values_perm _)))).
    rewrite labels_series_map. unfold labels. rewrite map_map. simpl.
    rewrite map_id. now apply Hcols.
Qed.

(** C5, as the code has it: with a catalog whose song ids are distinct and a
    count k >= 0, a returned frame has at most k rows; and when the known
    user has a positive count for every song of the catalog, the call returns
    the catalog's frame with no rows, printing nothing and raising
    nothing. *)
Theorem recommend_at_most_k {NP : Numpy}
    (user_id : Z) (pivot_table : DataFrame num) (song_similarity_df : DataFrame float)
    (songs_df : SongsFrame) (k : Z) (out : stdout) :
  (NoDup (map song_id (song_rows songs_df)) -> (0 <= k)%Z ->
   forall frame,
     fst (hybrid_recommend_songs user_id pivot_table song_similarity_df
                                 songs_df k out) = Returned frame ->
     (Z.of_nat (List.length (song_rows frame)) <= k)%Z)
  /\ (In user_id (index pivot_table) ->
      incl (columns pivot_table) (index song_similarity_df) ->
      (forall r, In r (song_rows songs_df) ->
                 In (song_id r) (columns pivot_table)
                 /\ positive (cell pivot_table user_id (song_id r)) = true) ->
      hybrid_recommend_songs user_id pivot_table song_similarity_df songs_df k out
      = (Returned (mkSongs (song_columns songs_df) []), out)).
Proof.
  split.
  - intros Hnd Hk frame Hres.
    apply hybrid_Returned in Hres.
    destruct Hres as [[top [Htop ->]]|[_ ->]]; [|simpl; lia].
    pose proof (@isin_rows_length songs_df (labels top) Hnd) as Hlen.
    apply top_songs_Returned in Htop. destruct Htop as [recs [_ ->]].
    pose proof (@head_length _ k (sort_values_desc recs) Hk) as Hh.
    assert (Hl : List.length (labels (head k (sort_values_desc recs)))
                 = List.length (head k (sort_values_desc recs)))
      by apply length_map.
    lia.
  - intros Hin Hsim Hall.
    destruct (@recommendations_known _ user_id pivot_table song_similarity_df
                Hin Hsim) as [recs Hrecs].
    assert (Htop : top_songs user_id pivot_table song_similarity_df k
                   = Returned (head k (sort_values_desc recs))).
    { unfold top_songs. now rewrite Hrecs. }
    unfold hybrid_recommend_songs. rewrite Htop.
    unfold isin_rows. rewrite filter_none; [reflexivity|].
    intros r Hr.
    apply mem_false. intros Hl.
    eapply top_songs_not_listened; [apply loc_known, Hin | apply Htop | apply Hl |].
    apply listened_songs_columns. now apply Hall.
Qed.

Lemma recommend_at_most_k_witness :
  (Z.of_nat (List.length [mkSong 2 "B" "b"]) <= 2)%Z
  /\ hybrid_recommend_songs 1 Examples.table (song_similarity_df Examples.table)
                            Examples.songs_heard_by_1 5 []
     = (Returned (mkSongs (song_columns Examples.songs_heard_by_1) []), []).
Proof.
  split.
  - refine (proj1 (@recommend_at_most_k reference 1 Examples.table
                     (song_similarity_df Examples.table) Examples.songs 2 [])
                  _ _ (mkSongs (song_columns Examples.songs) [mkSong 2 "B" "b"])
                  _).
    + simpl. repeat constructor; simpl; intuition discriminate.
    + lia.
    + vm_compute. reflexivity.
  - apply (proj2 (@recommend_at_most_k reference 1 Examples.table
                    (song_similarity_df Examples.table)
                    Examples.songs_heard_by_1 5 [])).
    + simpl. left. reflexivity.
    + apply incl_refl.
    + intros r [<-|[<-|[]]]; simpl; (split; [intuition | vm_compute; reflexivity]).
Defined.

(** C5 as stated fails for a negative count and for a catalog with a
    repeated id.  In the second dataset user 1 has the candidates 30 and 20:
    asked for -1 songs, [head] keeps all but the last and one record comes
    back; asked for 1 song with a catalog that has two rows under the id 30,
    both rows come back. *)
Lemma recommend_more_than_k :
  let sim := song_similarity_df Examples.table2 in
  (exists frame,
      hybrid_recommend_songs 1 Examples.table2 sim Examples.songs2 (-1) []
      = (Returned frame, [])
      /\ map song_id (song_rows frame) = [30]%Z
      /\ ~ (Z.of_nat (List.length (song_rows frame)) <= -1)%Z)
  /\ (exists frame,
         hybrid_recommend_songs 1 Examples.table2 sim
                                Examples.songs2_with_30_twice 1 []
         = (Returned frame, [])
         /\ map song_id (song_rows frame) = [30; 30]%Z
         /\ ~ (Z.of_nat (List.length (song_rows frame)) <= 1)%Z).
Proof.
  cbv zeta. split; eexists; (split; [vm_compute; reflexivity|]);
    (split; [reflexivity | simpl; lia]).
Qed.

(** ** Rows come from the catalog *)

Lemma head_of_ranking {A : Type} (k : Z) (s : list A) :
  exists rest, head k s ++ rest = s.
Proof.
  unfold head. destruct (k <? 0)%Z.
  - exists (skipn (List.length s - Z.to_nat (- k)) s). apply firstn_skipn.
  - exists (skipn (Z.to_nat k) s). apply firstn_skipn.
Qed.

Lemma head_length_min {A : Type} (k : Z) (s : list A) :
  (0 <= k)%Z ->
  Z.of_nat (List.length (head k s)) = Z.min k (Z.of_nat (List.length s)).
Proof.
  intros Hk. unfold head.
  destruct (k <? 0)%Z eqn:E; [apply Z.ltb_lt in E; lia|].
  rewrite length_firstn. lia.
Qed.

(** C10: every returned record is a row of the catalog whose id is among the
    top-k candidate ids, the top k being the first k entries of the
    candidates ranked in descending order of score, NaN last (min(k, number
    of candidates) entries when k >= 0); and a top-k id without a catalog row
    is dropped silently: in the second dataset, with the catalog that lacks
    song 30 and k = 2, two candidates survive the filtering and one record
    comes back. *)
Theorem recommend_rows_are_catalog_rows_of_top_k :
  (forall (NP : Numpy) (user_id : Z) (pivot_table : DataFrame num)
          (song_similarity_df : DataFrame float) (songs_df : SongsFrame)
          (k : Z) (out : stdout) (frame : SongsFrame) (r : Song),
      fst (hybrid_recommend_songs user_id pivot_table song_similarity_df
                                  songs_df k out) = Returned frame ->
      In r (song_rows frame) ->
      In r (song_rows songs_df)
      /\ exists recs top rest,
           recommendations user_id pivot_table song_similarity_df = Returned recs
           /\ top_songs user_id pivot_table song_similarity_df k = Returned top
           /\ In (song_id r) (labels top)
           /\ Permutation (top ++ rest) recs
           /\ descending (notna_part (top ++ rest))
           /\ top ++ rest = notna_part (top ++ rest) ++ isna_part (top ++ rest)
           /\ top = head k (top ++ rest)
           /\ ((0 <= k)%Z ->
               Z.of_nat (List.length top) = Z.min k (Z.of_nat (List.length recs))))
  /\ (exists (user_id : Z) (pivot_table : DataFrame num) (songs_df : SongsFrame)
             (k : Z) (recs top : Series float) (frame : SongsFrame),
         let sim := song_similarity_df pivot_table in
         recommendations user_id pivot_table sim = Returned recs
         /\ (k <= Z.of_nat (List.length recs))%Z
         /\ top_songs user_id pivot_table sim k = Returned top
         /\ Z.of_nat (List.length top) = k
         /\ (exists l, In l (labels top)
                       /\ ~ In l (map song_id (song_rows songs_df)))
         /\ hybrid_recommend_songs user_id pivot_table sim songs_df k []
            = (Returned frame, [])
         /\ (Z.of_nat (List.length (song_rows frame)) < k)%Z).
Proof.
  split.
  - intros NP user_id pivot_table song_similarity_df songs_df k out frame r Hres Hr.
    apply hybrid_Returned in Hres.
    destruct Hres as [[top [Htop ->]]|[_ ->]]; [|destruct Hr].
    simpl in Hr. apply filter_In in Hr. destruct Hr as [Hin Hmem].
    split; [assumption|].
    destruct (top_songs_Returned _ _ _ _ Htop) as [recs [Hrecs Etop]].
    destruct (head_of_ranking k (sort_values_desc recs)) as [rest Hrest].
    apply mem_In in Hmem. subst top.
    exists recs, (head k (sort_values_desc recs)), rest. rewrite Hrest.
    split; [assumption|]. split; [assumption|].
    split; [assumption|].
    split; [apply sort_values_perm|].
    split; [apply sort_values_descending|].
    split; [apply sort_values_nan_last|].
    split; [reflexivity|].
    intros Hk. rewrite (head_length_min _ Hk).
    now rewrite (Permutation_length (sort_values_perm recs)).
  - exists 1%Z, Examples.table2, Examples.songs2_without_30, 2%Z.
    eexists. eexists. eexists. cbv zeta.
    split; [vm_compute; reflexivity|].
    split; [vm_compute; discriminate|].
    split; [vm_compute; reflexivity|].
    split; [reflexivity|].
    split.
    + exists 30%Z. split; [simpl; now left|].
      simpl. intros [H|[H|[]]]; discriminate H.
    + split; [vm_compute; reflexivity|]. simpl. lia.
Qed.

Lemma recommend_rows_are_catalog_rows_of_top_k_witness :
  In (mkSong 2 "B" "b") (song_rows Examples.songs).
Proof.
  apply (proj1 recommend_rows_are_catalog_rows_of_top_k reference 1%Z
               Examples.table (song_similarity_df Examples.table)
               Examples.songs 2%Z []
               (mkSongs (song_columns Examples.songs) [mkSong 2 "B" "b"])
               (mkSong 2 "B" "b")).
  - vm_compute. reflexivity.
  - simpl. now left.
Defined.

(** ** Ranking and the order of the result *)

(** C3, as the code has it: for a known user (and a similarity frame with a
    row for every song of the table) the remaining candidates are ranked:
    the ranking holds every candidate once, its scores that are numbers come
    first and in descending order, the order among equal scores being the
    library's, and the NaN scores come last; the first k of the ranking are
    taken.  The frame returned holds the catalog rows whose id is among
    those k, in the order of the catalog.  The rank order is not carried
    over. *)
Theorem recommend_ranked_then_catalog_order {NP : Numpy}
    (user_id : Z) (pivot_table : DataFrame num) (song_similarity_df : DataFrame float)
    (songs_df : SongsFrame) (k : Z) (out : stdout) :
  In user_id (index pivot_table) ->
  incl (columns pivot_table) (index song_similarity_df) ->
  exists recs ranked,
    recommendations user_id pivot_table song_similarity_df = Returned recs
    /\ Permutation ranked recs
    /\ descending (notna_part ranked)
    /\ ranked = notna_part ranked ++ isna_part ranked
    /\ top_songs user_id pivot_table song_similarity_df k
       = Returned (head k ranked)
    /\ hybrid_recommend_songs user_id pivot_table song_similarity_df songs_df k out
       = (Returned
            (mkSongs (song_columns songs_df)
               (filter (fun r => mem (song_id r) (labels (head k ranked)))
                       (song_rows songs_df))),
          out).
Proof.
  intros Hin Hsim.
  destruct (@recommendations_known _ user_id pivot_table song_similarity_df
              Hin Hsim) as [recs Hrecs].
  exists recs, (sort_values_desc recs).
  assert (Htop : top_songs user_id pivot_table song_similarity_df k
                 = Returned (head k (sort_values_desc recs))).
  { unfold top_songs. now rewrite Hrecs. }
  split; [assumption|].
  split; [apply sort_values_perm|].
  split; [apply sort_values_descending|].
  split; [apply sort_values_nan_last|].
  split; [assumption|].
  unfold hybrid_recommend_songs. now rewrite Htop.
Qed.

Lemma recommend_ranked_then_catalog_order_witness :
  exists recs ranked,
    recommendations 1 Examples.table2 (song_similarity_df Examples.table2)
    = Returned recs
    /\ Permutation ranked recs
    /\ descending (notna_part ranked)
    /\ ranked = notna_part ranked ++ isna_part ranked
    /\ top_songs 1 Examples.table2 (song_similarity_df Examples.table2) 5
       = Returned (head 5 ranked)
    /\ hybrid_recommend_songs 1 Examples.table2
         (song_similarity_df Examples.table2) Examples.songs2 5 []
       = (Returned
            (mkSongs (song_columns Examples.songs2)
               (filter (fun r => mem (song_id r) (labels (head 5 ranked)))
                       (song_rows Examples.songs2))),
          []).
Proof.
  apply (@recommend_ranked_then_catalog_order reference 1 Examples.table2
           (song_similarity_df Examples.table2) Examples.songs2 5 []).
  - simpl. now left.
  - apply incl_refl.
Defined.

(** C3 as stated fails.  In the second dataset user 1 is recommended songs 30
    and 20, ranked in that order (scores 5 and 1); the frame returned lists
    song 20 before song 30, the order of the catalog, so the records are not
    in descending order of score. *)
Lemma result_not_in_rank_order :
  let sim := song_similarity_df Examples.table2 in
  top_songs 1 Examples.table2 sim 5
  = Returned [(30%Z, 5%float); (20%Z, 1%float)]
  /\ (exists frame,
        fst (hybrid_recommend_songs 1 Examples.table2 sim Examples.songs2 5 [])
        = Returned frame
        /\ map song_id (song_rows frame) = [20; 30]%Z
        /\ map song_id (song_rows frame) <> [30; 20]%Z)
  /\ PrimFloat.ltb 1%float 5%float = true.
Proof.
  cbv zeta. split; [vm_compute; reflexivity|]. split; [|reflexivity].
  eexists. split; [vm_compute; reflexivity|].
  split; [reflexivity | discriminate].
Qed.

(** * The song similarity engine *)


(** ** All-zero columns *)





(** ** The diagonal of a song with a single listener *)













(** * More on the interaction matrix builder (line 13) *)

Lemma same_key_pair (e1 e2 : ListenEvent) :
  same_key e1 e2 = true
  <-> (ev_user e1, ev_song e1) = (ev_user e2, ev_song e2).
Proof.
  unfold same_key. rewrite andb_true_iff, !Z.eqb_eq. split.
  - intros [-> ->]. reflexivity.
  - intros H. now injection H.
Qed.

Lemma has_duplicates_NoDup (evs : list ListenEvent) :
  has_duplicates evs = false
  <-> NoDup (map (fun e => (ev_user e, ev_song e)) evs).
Proof.
  induction evs as [|e rest IH]; simpl.
  - split; [constructor | reflexivity].
  - rewrite orb_false_iff, IH, NoDup_cons_iff.
    assert (Hex : existsb (same_key e) rest = false
                  <-> ~ In (ev_user e, ev_song e)
                           (map (fun e => (ev_user e, ev_song e)) rest)).
    { rewrite <- not_true_iff_false, existsb_exists, in_map_iff.
      split; intros H [e' He']; apply H; exists e'.
      - destruct He' as [E Hin]. split; [assumption|].
        now apply same_key_pair.
      - destruct He' as [Hin E]. split; [|assumption].
        symmetry. now apply same_key_pair. }
    now rewrite Hex.
Qed.

Lemma pivot_table_Returned (evs : list ListenEvent) (t : DataFrame num) :
  pivot_table evs = Returned t ->
  has_duplicates evs = false
  /\ t = fillna 0 (mkFrame (sorted_unique (map ev_user evs))
                           (sorted_unique (map ev_song evs))
                           (fun u s => option_map (count_cell evs)
                                                  (event_count evs u s))).
Proof.
  unfold pivot_table, pivot.
  destruct (has_duplicates evs); simpl; [discriminate|].
  intros H. injection H as <-. now split.
Qed.

Lemma HdRel_insert_asc (a x : Z) (l : list Z) :
  (a < x)%Z -> HdRel Z.lt a l -> HdRel Z.lt a (insert_asc x l).
Proof.
  intros Hax Hl. destruct l as [|h t]; simpl.
  - now constructor.
  - destruct (x <=? h)%Z; constructor; [assumption | now inversion Hl].
Qed.

Lemma insert_asc_increasing (x : Z) (l : list Z) :
  ~ In x l -> Sorted Z.lt l -> Sorted Z.lt (insert_asc x l).
Proof.
  intros Hnot Hs. induction l as [|h t IH]; simpl.
  - repeat constructor.
  - inversion Hs as [|h' t' Ht Hhd]; subst.
    destruct (Z.leb_spec x h) as [Hle|Hlt].
    + constructor; [assumption|]. constructor.
      assert (x <> h) by (intros ->; apply Hnot; now left). lia.
    + constructor.
      * apply IH; [|assumption]. intros Hin. apply Hnot. now right.
      * now apply HdRel_insert_asc.
Qed.

Lemma sorted_unique_increasing (l : list Z) : Sorted Z.lt (sorted_unique l).
Proof.
  unfold sorted_unique.
  pose proof (NoDup_nodup Z.eq_dec l) as Hnd.
  induction (nodup Z.eq_dec l) as [|x xs IH]; simpl.
  - constructor.
  - apply NoDup_cons_iff in Hnd. destruct Hnd as [Hx Hxs].
    apply insert_asc_increasing; [|now apply IH].
    intros Hin. apply Hx. now apply (Permutation_in _ (sort_asc_perm xs)).
Qed.

(** X2: the rows of a built table are the users of the events, each once,
    in increasing order; its columns are the songs of the events, each once,
    in increasing order. *)
Theorem pivot_table_labels (evs : list ListenEvent) (t : DataFrame num) :
  pivot_table evs = Returned t ->
  Sorted Z.lt (index t)
  /\ Sorted Z.lt (columns t)
  /\ (forall u, In u (index t) <-> exists e, In e evs /\ ev_user e = u)
  /\ (forall s, In s (columns t) <-> exists e, In e evs /\ ev_song e = s).
Proof.
  intros H. apply pivot_table_Returned in H. destruct H as [_ ->]. simpl.
  split; [apply sorted_unique_increasing|].
  split; [apply sorted_unique_increasing|].
  split; intros x; rewrite sorted_unique_In, in_map_iff;
    split; intros [e He]; exists e; tauto.
Qed.

Lemma pivot_table_labels_witness :
  Sorted Z.lt (index Examples.table2) /\ Sorted Z.lt (columns Examples.table2).
Proof.
  destruct (@pivot_table_labels Examples.history2 Examples.table2)
    as [Hi [Hc _]]; [reflexivity | now split].
Defined.

Lemma event_count_absent (evs : list ListenEvent) (u s : Z) :
  ~ In (u, s) (map (fun e => (ev_user e, ev_song e)) evs) ->
  event_count evs u s = None.
Proof.
  intros Hnot. unfold event_count.
  destruct (find _ evs) as [e|] eqn:E; [|reflexivity].
  exfalso. apply find_some in E. destruct E as [Hin Hk].
  apply andb_true_iff in Hk. destruct Hk as [Hu Hs].
  apply Z.eqb_eq in Hu, Hs. apply Hnot. apply in_map_iff.
  exists e. split; [now rewrite Hu, Hs | assumption].
Qed.

Lemma event_count_present (evs : list ListenEvent) (u s : Z) :
  In (u, s) (map (fun e => (ev_user e, ev_song e)) evs) ->
  exists c, event_count evs u s = Some c.
Proof.
  intros Hin. unfold event_count.
  destruct (find _ evs) as [e|] eqn:E; [now exists (ev_count e)|].
  exfalso. apply in_map_iff in Hin. destruct Hin as [e [Hk He]].
  injection Hk as <- <-.
  pose proof (find_none _ _ E e He) as Hf. simpl in Hf.
  now rewrite !Z.eqb_refl in Hf.
Qed.

(** The table is complete when every user of the events has an event for
    every song of the events. *)
Lemma complete_spec (evs : list ListenEvent) :
  complete evs = true
  <-> forall u s, In u (map ev_user evs) -> In s (map ev_song evs) ->
                  In (u, s) (map (fun e => (ev_user e, ev_song e)) evs).
Proof.
  unfold complete. rewrite forallb_forall. split.
  - intros H u s Hu Hs.
    apply (proj2 (sorted_unique_In _ _)) in Hu.
    apply (proj2 (sorted_unique_In _ _)) in Hs.
    pose proof (proj1 (forallb_forall _ _) (H u Hu) s Hs) as Hc. simpl in Hc.
    unfold event_count in Hc.
    destruct (find _ evs) as [e|] eqn:E; [|discriminate Hc].
    apply find_some in E. destruct E as [He Hk].
    apply andb_true_iff in Hk. destruct Hk as [Eu Es].
    apply Z.eqb_eq in Eu, Es. apply in_map_iff.
    exists e. split; [now rewrite Eu, Es | assumption].
  - intros H u Hu. apply forallb_forall. intros s Hs.
    rewrite sorted_unique_In in Hu, Hs.
    destruct (event_count_present evs u s (H u s Hu Hs)) as [c ->].
    reflexivity.
Qed.

(** X3: in a built table the cell of every event's (user, song) pair is
    that event's count, an int64 when every user has an event for every
    song and its float64 otherwise; the cell of a pair without an event is
    the float 0. *)
Theorem pivot_table_cells (evs : list ListenEvent) (t : DataFrame num) :
  pivot_table evs = Returned t ->
  (forall e, In e evs ->
     cell t (ev_user e) (ev_song e)
     = if complete evs then Int (ev_count e) else Flt (Z2F (ev_count e)))
  /\ (forall u s, ~ In (u, s) (map (fun e => (ev_user e, ev_song e)) evs) ->
                  cell t u s = Flt PrimFloat.zero)
  /\ (complete evs = true
      <-> forall u s, In u (index t) -> In s (columns t) ->
                      In (u, s) (map (fun e => (ev_user e, ev_song e)) evs)).
Proof.
  intros H. apply pivot_table_Returned in H. destruct H as [Hdup ->].
  split; [|split].
  - intros e Hin. simpl. now rewrite (event_count_unique evs e Hdup Hin).
  - intros u s Hnot. simpl. now rewrite (@event_count_absent evs u s Hnot).
  - rewrite complete_spec. simpl.
    split; intros H u s Hu Hs; apply H; now apply sorted_unique_In.
Qed.

Lemma pivot_table_cells_witness :
  cell Examples.table2 2 30 = Flt (Z2F 5)
  /\ cell Examples.table2 1 30 = Flt PrimFloat.zero.
Proof.
  destruct (@pivot_table_cells Examples.history2 Examples.table2)
    as [Hin [Hout _]]; [reflexivity|].
  split.
  - exact (Hin (Examples.ev 2 30 5) (or_intror (or_intror (or_introl eq_refl)))).
  - apply Hout. simpl. intros [H|[H|[H|[]]]]; discriminate H.
Defined.

(** * More on the recommender (lines 19-66) *)

Lemma loc_rows_missing {A : Type} (df : DataFrame A) (ls : list Z) (l : Z) :
  In l ls -> ~ In l (index df) -> loc_rows df ls = Raised KeyError.
Proof.
  intros Hin Hnot. unfold loc_rows.
  destruct (forallb (fun x => mem x (index df)) ls) eqn:E; [|reflexivity].
  exfalso. apply Hnot. now apply (proj1 (forallb_mem_incl ls (index df)) E).
Qed.

(** X4: [except KeyError] covers the whole body.  A user who is a row of the
    table, but has heard a song for which the similarity frame has no row,
    is reported as not found: the message is printed and the empty frame
    returned. *)
Theorem known_user_reported_not_found {NP : Numpy}
    (user_id : Z) (pivot_table : DataFrame num) (song_similarity_df : DataFrame float)
    (songs_df : SongsFrame) (k : Z) (out : stdout) (song : Z) :
  In user_id (index pivot_table) ->
  In song (columns pivot_table) ->
  positive (cell pivot_table user_id song) = true ->
  ~ In song (index song_similarity_df) ->
  hybrid_recommend_songs user_id pivot_table song_similarity_df songs_df k out
  = (Returned empty_frame, out ++ [not_found_message user_id]).
Proof.
  intros Hin Hsong Hpos Hnot.
  unfold hybrid_recommend_songs, top_songs, recommendations.
  rewrite (loc_known _ _ Hin). simpl.
  set (uv := map _ (columns pivot_table)).
  destruct (@user_based_sums_known _ pivot_table uv user_id Hin)
    as [ranked [_ [_ Hsums]]].
  unfold user_based_scores. rewrite Hsums. simpl.
  unfold item_based_scores.
  rewrite (@loc_rows_missing _ song_similarity_df _ song); [reflexivity| |assumption].
  apply listened_songs_columns. now split.
Qed.

Lemma known_user_reported_not_found_witness :
  hybrid_recommend_songs 1 Examples.table
    (mkFrame [2; 3]%Z [1; 2; 3]%Z (cell (song_similarity_df Examples.table)))
    Examples.songs 5 []
  = (Returned empty_frame, [] ++ [not_found_message 1]).
Proof.
  apply (@known_user_reported_not_found reference 1 Examples.table
           (mkFrame [2; 3]%Z [1; 2; 3]%Z (cell (song_similarity_df Examples.table)))
           Examples.songs 5 [] 1).
  - simpl. tauto.
  - simpl. tauto.
  - reflexivity.
  - simpl. intros [H|[H|[]]]; discriminate H.
Defined.

(** ** The scores of the candidates *)

Lemma listened_songs_heard (pivot_table : DataFrame num) (user_id : Z) :
  listened_songs (map (fun c => (c, cell pivot_table user_id c))
                      (columns pivot_table))
  = heard_songs pivot_table user_id.
Proof.
  unfold listened_songs, heard_songs.
  induction (columns pivot_table) as [|c cs IH]; simpl; [reflexivity|].
  destruct (positive (cell pivot_table user_id c)); simpl; now rewrite IH.
Qed.

Lemma combine_same_labels {A B : Type} (a : Series A) (b : Series B)
    (x : Z * A) (y : Z * B) :
  labels a = labels b -> In (x, y) (combine a b) -> fst x = fst y.
Proof.
  revert b. induction a as [|h t IH]; intros [|h' t'] E Hin; simpl in *;
    try contradiction.
  injection E as E1 E2. destruct Hin as [Hin|Hin].
  - injection Hin as <- <-. assumption.
  - now apply (IH t').
Qed.

Lemma get_of_graph (f : Z -> float) (a : Series float) (l : Z) :
  (forall l' v, In (l', v) a -> v = f l') ->
  In l (labels a) -> get a l = f l.
Proof.
  unfold get. induction a as [|[l' v'] t IH]; intros Hg Hin; simpl in *.
  - destruct Hin.
  - destruct (Z.eqb_spec l l') as [->|Hne].
    + apply Hg. now left.
    + apply IH.
      * intros l'' v Hv. apply Hg. now right.
      * destruct Hin as [E|Hin]; [congruence | assumption].
Qed.

(** Adding two Series that give, label by label, [f] and [g], over the
    same set of labels, gives [f + g] label by label. *)
Lemma add_series_graph (f g : Z -> float) (a b : Series float) (l : Z) (v : float) :
  (forall l' x, In (l', x) a -> x = f l') ->
  (forall l' y, In (l', y) b -> y = g l') ->
  (forall l', In l' (labels a) <-> In l' (labels b)) ->
  In (l, v) (add_series a b) ->
  In l (labels a) /\ v = PrimFloat.add (f l) (g l).
Proof.
  intros Hf Hg Hsame. unfold add_series, list_eqb.
  destruct (list_eq_dec Z.eq_dec (labels a) (labels b)) as [E|_]; intros Hin;
    apply in_map_iff in Hin.
  - destruct Hin as [[[l1 x] [l2 y]] [Hv Hc]]. simpl in Hv.
    injection Hv as <- <-.
    pose proof (combine_same_labels a b _ _ E Hc) as El. simpl in El. subst l2.
    pose proof (in_combine_l _ _ _ _ Hc) as Ha.
    pose proof (in_combine_r _ _ _ _ Hc) as Hb.
    split; [apply in_labels; now exists x|].
    now rewrite (Hf _ _ Ha), (Hg _ _ Hb).
  - destruct Hin as [l' [Hv Hl]]. injection Hv as -> <-.
    rewrite sorted_unique_In in Hl.
    assert (Ha : In l (labels a)).
    { apply in_app_or in Hl. destruct Hl as [Hl|Hl]; [assumption|].
      now apply Hsame. }
    split; [assumption|].
    rewrite (get_of_graph f a l Hf Ha).
    now rewrite (get_of_graph g b l Hg (proj1 (Hsame l) Ha)).
Qed.

Lemma sorted_series_graph {NP : Numpy}
    (f : Z -> float) (ls : list Z) (l : Z) (v : float) :
  In (l, v) (sort_values_desc (map (fun c => (c, f c)) ls)) ->
  In l ls /\ v = f l.
Proof.
  intros H. apply (Permutation_in _ (sort_values_perm _)) in H.
  apply in_map_iff in H. destruct H as [c [E Hc]]. injection E as -> <-.
  now split.
Qed.

Lemma sorted_series_labels {NP : Numpy} (f : Z -> float) (ls : list Z) (l : Z) :
  In l (labels (sort_values_desc (map (fun c => (c, f c)) ls))) <-> In l ls.
Proof.
  split; intros H.
  - apply in_labels in H. destruct H as [v H].
    now apply sorted_series_graph in H.
  - apply in_labels. exists (f l).
    apply (Permutation_in _ (Permutation_sym (sort_values_perm _))).
    apply in_map_iff. now exists l.
Qed.

Lemma recommendations_indexed_by_songs {NP : Numpy}
    (user_id : Z) (pivot_table : DataFrame num) (song_similarity_df : DataFrame float) :
  In user_id (index pivot_table) ->
  index song_similarity_df = columns pivot_table ->
  exists ranked,
    similar_users pivot_table
                  (map (fun c => (c, cell pivot_table user_id c))
                       (columns pivot_table))
                  user_id
    = Returned ranked
    /\ Permutation ranked (other_users pivot_table user_id)
    /\ recommendations user_id pivot_table song_similarity_df
       = Returned
           (filter (fun e => negb (mem (fst e) (heard_songs pivot_table user_id)))
              (add_series
                 (sort_values_desc
                    (map (fun c => (c, to_float (neighbour_sum pivot_table ranked c)))
                         (columns pivot_table)))
                 (sort_values_desc
                    (map (fun c => (c, item_sum song_similarity_df pivot_table
                                                user_id c))
                         (columns song_similarity_df))))).
Proof.
  intros Hin Hidx.
  destruct (@user_based_sums_known _ pivot_table
              (map (fun c => (c, cell pivot_table user_id c)) (columns pivot_table))
              user_id Hin) as [ranked [Hs [Hp Hsums]]].
  exists ranked. split; [assumption|]. split; [assumption|].
  unfold recommendations.
  rewrite (loc_known _ _ Hin). simpl.
  unfold user_based_scores. rewrite Hsums. simpl.
  rewrite listened_songs_heard.
  unfold item_based_scores. rewrite listened_songs_heard.
  rewrite loc_rows_incl.
  2:{ rewrite Hidx. intros l Hl. unfold heard_songs in Hl.
      now apply filter_In in Hl. }
  simpl. unfold series_map. rewrite map_map. simpl.
  apply drop_incl.
  intros l Hl. apply labels_add_series_l.
  apply sorted_series_labels. unfold heard_songs in Hl.
  now apply filter_In in Hl.
Qed.

Lemma add_series_labels_NoDup (a b : Series float) :
  NoDup (labels a) -> NoDup (labels (add_series a b)).
Proof.
  intros Ha. unfold add_series, list_eqb.
  destruct (list_eq_dec Z.eq_dec (labels a) (labels b)) as [E|_].
  - rewrite labels_zip_add; [assumption|].
    unfold labels in E. apply (f_equal (@List.length Z)) in E.
    now rewrite !length_map in E.
  - unfold labels at 1. rewrite map_map. simpl. rewrite map_id.
    unfold sorted_unique.
    apply (Permutation_NoDup (Permutation_sym (sort_asc_perm _))).
    apply NoDup_nodup.
Qed.

Lemma candidates_of_known_user {NP : Numpy}
    (user_id : Z) (pivot_table : DataFrame num) (song_similarity_df : DataFrame float) :
  In user_id (index pivot_table) ->
  index song_similarity_df = columns pivot_table ->
  columns song_similarity_df = columns pivot_table ->
  exists ranked recs,
    similar_users pivot_table
                  (map (fun c => (c, cell pivot_table user_id c))
                       (columns pivot_table))
                  user_id
    = Returned ranked
    /\ Permutation ranked (other_users pivot_table user_id)
    /\ recommendations user_id pivot_table song_similarity_df = Returned recs
    /\ (forall song, In song (labels recs)
                     <-> In song (unheard_songs pivot_table user_id))
    /\ (forall song score, In (song, score) recs ->
          score = PrimFloat.add
                    (to_float (neighbour_sum pivot_table ranked song))
                    (item_sum song_similarity_df pivot_table user_id song))
    /\ (NoDup (columns pivot_table) -> NoDup (labels recs)).
Proof.
  intros Hin Hidx Hcol.
  destruct (@recommendations_indexed_by_songs _ user_id pivot_table
              song_similarity_df Hin Hidx) as [ranked [Hs [Hp Hrecs]]].
  exists ranked. eexists.
  split; [exact Hs|]. split; [exact Hp|]. split; [exact Hrecs|].
  set (ub := sort_values_desc (map _ (columns pivot_table))).
  set (ib := sort_values_desc (map _ (columns song_similarity_df))).
  assert (Hgraph : forall l v, In (l, v) (add_series ub ib) ->
            In l (labels ub)
            /\ v = PrimFloat.add
                     (to_float (neighbour_sum pivot_table ranked l))
                     (item_sum song_similarity_df pivot_table user_id l)).
  { intros l v.
    apply (@add_series_graph
             (fun c => to_float (neighbour_sum pivot_table ranked c))
             (fun c => item_sum song_similarity_df pivot_table user_id c)).
    - intros l' x Hx. now apply sorted_series_graph in Hx.
    - intros l' y Hy. now apply sorted_series_graph in Hy.
    - intros l'. unfold ub, ib. rewrite !sorted_series_labels. now rewrite Hcol. }
  assert (Hheard : forall l, mem l (heard_songs pivot_table user_id) = true
                             <-> In l (columns pivot_table)
                                 /\ positive (cell pivot_table user_id l) = true).
  { intros l. rewrite mem_In. unfold heard_songs.
    apply (filter_In (fun s => positive (cell pivot_table user_id s))). }
  split; [|split].
  - intros song. unfold unheard_songs. rewrite filter_In, in_labels. split.
    + intros [v Hv]. apply filter_In in Hv. destruct Hv as [Hv Hm]. simpl in Hm.
      apply Hgraph in Hv. destruct Hv as [Hl _].
      apply sorted_series_labels in Hl. split; [assumption|].
      destruct (positive (cell pivot_table user_id song)) eqn:E; [|reflexivity].
      rewrite (proj2 (Hheard song)) in Hm by now split. discriminate Hm.
    + intros [Hc Hn].
      assert (Hl : In song (labels (add_series ub ib))).
      { apply labels_add_series_l. now apply sorted_series_labels. }
      apply in_labels in Hl. destruct Hl as [v Hv]. exists v.
      apply filter_In. split; [assumption|]. simpl.
      destruct (mem song (heard_songs pivot_table user_id)) eqn:E; [|reflexivity].
      apply Hheard in E. destruct E as [_ E]. rewrite E in Hn. discriminate Hn.
  - intros song score Hs'. apply filter_In in Hs'. destruct Hs' as [Hs' _].
    now apply Hgraph in Hs'.
  - intros Hnd.
    pose proof (labels_filter_fst
                  (fun l => negb (mem l (heard_songs pivot_table user_id)))
                  (add_series ub ib)) as Hf.
    cbv beta in Hf. rewrite Hf.
    apply NoDup_filter. apply add_series_labels_NoDup.
    apply (Permutation_NoDup
             (Permutation_sym (labels_perm (sort_values_perm _)))).
    unfold labels. rewrite map_map. simpl. now rewrite map_id.
Qed.



(** ** Which songs can come back, and how many *)

Lemma labels_add_series_incl (a b : Series float) (l : Z) :
  In l (labels (add_series a b)) -> In l (labels a) \/ In l (labels b).
Proof.
  unfold add_series, list_eqb.
  destruct (list_eq_dec Z.eq_dec (labels a) (labels b)) as [E|_].
  - rewrite labels_zip_add; [tauto|].
    unfold labels in E. apply (f_equal (@List.length Z)) in E.
    now rewrite !length_map in E.
  - unfold labels at 1. rewrite map_map. simpl. rewrite map_id.
    rewrite sorted_unique_In. apply in_app_or.
Qed.

Lemma item_based_scores_labels {NP : Numpy} (song_similarity_df : DataFrame float)
    (user_vector : Series num) (item_based : Series float) (l : Z) :
  item_based_scores song_similarity_df user_vector = Returned item_based ->
  In l (labels item_based) -> In l (columns song_similarity_df).
Proof.
  unfold item_based_scores, loc_rows.
  destruct (forallb _ (listened_songs user_vector)); simpl; [|discriminate].
  intros H. injection H as <-. unfold nansum_axis0. simpl.
  intros Hl. now apply sorted_series_labels in Hl.
Qed.

Lemma user_based_scores_labels {NP : Numpy} (pivot_table : DataFrame num)
    (user_vector : Series num) (user_id : Z) (user_based : Series float) (l : Z) :
  In user_id (index pivot_table) ->
  user_based_scores pivot_table user_vector user_id = Returned user_based ->
  In l (labels user_based) -> In l (columns pivot_table).
Proof.
  intros Hin. unfold user_based_scores.
  destruct (@user_based_sums_known _ pivot_table user_vector user_id Hin)
    as [ranked [_ [_ Hsums]]].
  rewrite Hsums. simpl.
  intros H. injection H as <-. unfold series_map. rewrite map_map. simpl.
  intros Hl. now apply sorted_series_labels in Hl.
Qed.

(** X6: only songs of the table come back.  With a similarity frame whose
    columns are songs of the table, a catalog song that no listen event
    mentions is never recommended. *)
Theorem recommended_songs_are_table_columns {NP : Numpy}
    (user_id : Z) (pivot_table : DataFrame num) (song_similarity_df : DataFrame float)
    (songs_df : SongsFrame) (k : Z) (out : stdout) (frame : SongsFrame) (r : Song) :
  incl (columns song_similarity_df) (columns pivot_table) ->
  fst (hybrid_recommend_songs user_id pivot_table song_similarity_df songs_df k out)
  = Returned frame ->
  In r (song_rows frame) ->
  In (song_id r) (columns pivot_table).
Proof.
  intros Hcols Hres Hr.
  apply hybrid_Returned in Hres.
  destruct Hres as [[top [Htop ->]]|[_ ->]]; [|destruct Hr].
  simpl in Hr. apply filter_In in Hr. destruct Hr as [_ Hr].
  apply mem_In in Hr.
  apply top_songs_Returned in Htop. destruct Htop as [recs [Hrecs ->]].
  apply top_labels_incl in Hr.
  apply recommendations_Returned in Hrecs.
  destruct Hrecs as [uv [ub [ib [Huv [Hub [Hib Hdrop]]]]]].
  apply drop_Returned in Hdrop. destruct Hdrop as [_ ->].
  apply in_labels in Hr. destruct Hr as [v Hv].
  apply filter_In in Hv. destruct Hv as [Hv _].
  assert (Hl : In (song_id r) (labels (add_series ub ib)))
    by (apply in_labels; now exists v).
  apply loc_Returned in Huv. destruct Huv as [Hin _].
  apply labels_add_series_incl in Hl. destruct Hl as [Hl|Hl].
  - eapply user_based_scores_labels; eauto.
  - apply Hcols. eapply item_based_scores_labels; eauto.
Qed.

Lemma recommended_songs_are_table_columns_witness :
  In 2%Z (columns Examples.table).
Proof.
  apply (@recommended_songs_are_table_columns reference 1 Examples.table
           (song_similarity_df Examples.table) Examples.songs 2 []
           (mkSongs (song_columns Examples.songs) [mkSong 2 "B" "b"])
           (mkSong 2 "B" "b")).
  - apply incl_refl.
  - vm_compute. reflexivity.
  - simpl. now left.
Defined.

(** X7: a count that is not positive.  With k = 0 the frame returned has
    no rows.  With k < 0 nothing fails: of the candidates ranked in
    descending order of score (NaN last, equal scores in the library's
    order) [head] keeps all but the last -k, and the frame returned holds the
    catalog rows of those. *)
Theorem nonpositive_num_recommendations {NP : Numpy}
    (user_id : Z) (pivot_table : DataFrame num) (song_similarity_df : DataFrame float)
    (songs_df : SongsFrame) (out : stdout) (recs : Series float) :
  recommendations user_id pivot_table song_similarity_df = Returned recs ->
  hybrid_recommend_songs user_id pivot_table song_similarity_df songs_df 0 out
  = (Returned (mkSongs (song_columns songs_df) []), out)
  /\ forall k, (k < 0)%Z ->
       exists kept dropped,
         Permutation (kept ++ dropped) recs
         /\ descending (notna_part (kept ++ dropped))
         /\ kept ++ dropped
            = notna_part (kept ++ dropped) ++ isna_part (kept ++ dropped)
         /\ List.length kept = List.length recs - Z.to_nat (- k)
         /\ top_songs user_id pivot_table song_similarity_df k = Returned kept
         /\ hybrid_recommend_songs user_id pivot_table song_similarity_df
                                   songs_df k out
            = (Returned (isin_rows songs_df (labels kept)), out).
Proof.
  intros Hrecs. split.
  - unfold hybrid_recommend_songs, top_songs. rewrite Hrecs. simpl.
    unfold isin_rows. simpl. now rewrite filter_none.
  - intros k Hk.
    assert (Hlen : List.length (sort_values_desc recs) = List.length recs)
      by apply Permutation_length, sort_values_perm.
    assert (Htop : top_songs user_id pivot_table song_similarity_df k
                   = Returned (firstn (List.length recs - Z.to_nat (- k))
                                      (sort_values_desc recs))).
    { unfold top_songs. rewrite Hrecs. simpl. unfold head.
      rewrite (proj2 (Z.ltb_lt k 0) Hk). now rewrite Hlen. }
    exists (firstn (List.length recs - Z.to_nat (- k)) (sort_values_desc recs)),
           (skipn (List.length recs - Z.to_nat (- k)) (sort_values_desc recs)).
    rewrite firstn_skipn.
    split; [apply sort_values_perm|].
    split; [apply sort_values_descending|].
    split; [apply sort_values_nan_last|].
    split; [rewrite length_firstn, Hlen; lia|].
    split; [assumption|].
    unfold hybrid_recommend_songs. now rewrite Htop.
Qed.

Lemma nonpositive_num_recommendations_witness :
  hybrid_recommend_songs 1 Examples.table2 (song_similarity_df Examples.table2)
                         Examples.songs2 0 []
  = (Returned (mkSongs (song_columns Examples.songs2) []), []).
Proof.
  apply (@nonpositive_num_recommendations reference 1 Examples.table2
           (song_similarity_df Examples.table2) Examples.songs2 []
           [(20%Z, 1%float); (30%Z, 5%float)]).
  vm_compute. reflexivity.
Defined.

Lemma NoDup_firstn {A : Type} (n : nat) (l : list A) :
  NoDup l -> NoDup (firstn n l).
Proof.
  intros H. rewrite <- (firstn_skipn n l) in H.
  now apply NoDup_app_remove_r in H.
Qed.

(** With distinct ids on both sides and every asked id in the catalog, the
    selection has one row per asked id. *)
Lemma isin_rows_exact (songs_df : SongsFrame) (ids : list Z) :
  NoDup (map song_id (song_rows songs_df)) ->
  NoDup ids ->
  incl ids (map song_id (song_rows songs_df)) ->
  List.length (song_rows (isin_rows songs_df ids)) = List.length ids.
Proof.
  intros Hcat Hids Hincl. apply Nat.le_antisymm.
  - now apply isin_rows_length.
  - simpl. rewrite <- (length_map song_id).
    apply NoDup_incl_length; [assumption|].
    intros l Hl. pose proof (Hincl l Hl) as Hc.
    apply in_map_iff in Hc. destruct Hc as [r [E Hr]].
    apply in_map_iff. exists r. split; [assumption|].
    apply filter_In. split; [assumption|]. apply mem_In. now rewrite E.
Qed.

(** X8: how many rows exactly.  For a known user, a similarity frame
    labelled by the songs of the table, distinct songs in the table, and a
    catalog with distinct ids that has a row for every song of the table,
    asking for k >= 0 songs returns min(k, number of songs of the table the
    user has not heard) rows, printing nothing. *)
Theorem recommend_exact_size {NP : Numpy}
    (user_id : Z) (pivot_table : DataFrame num) (song_similarity_df : DataFrame float)
    (songs_df : SongsFrame) (k : Z) (out : stdout) :
  In user_id (index pivot_table) ->
  index song_similarity_df = columns pivot_table ->
  columns song_similarity_df = columns pivot_table ->
  NoDup (columns pivot_table) ->
  NoDup (map song_id (song_rows songs_df)) ->
  incl (columns pivot_table) (map song_id (song_rows songs_df)) ->
  (0 <= k)%Z ->
  exists frame,
    hybrid_recommend_songs user_id pivot_table song_similarity_df songs_df k out
    = (Returned frame, out)
    /\ List.length (song_rows frame)
       = Nat.min (Z.to_nat k) (List.length (unheard_songs pivot_table user_id)).
Proof.
  intros Hin Hidx Hcol Hnd Hcat Hcover Hk.
  destruct (@candidates_of_known_user _ user_id pivot_table song_similarity_df
              Hin Hidx Hcol)
    as [ranked [recs [_ [_ [Hrecs [Hlabels [_ Hnd_recs]]]]]]].
  specialize (Hnd_recs Hnd).
  assert (Hlen : List.length recs
                 = List.length (unheard_songs pivot_table user_id)).
  { rewrite <- (length_map fst recs). fold (labels recs).
    apply Permutation_length. apply NoDup_Permutation; try assumption.
    unfold unheard_songs. now apply NoDup_filter. }
  set (top := head k (sort_values_desc recs)).
  assert (Htop : top_songs user_id pivot_table song_similarity_df k = Returned top).
  { unfold top_songs. now rewrite Hrecs. }
  exists (isin_rows songs_df (labels top)). split.
  - unfold hybrid_recommend_songs. now rewrite Htop.
  - assert (Hhead : top = firstn (Z.to_nat k) (sort_values_desc recs)).
    { unfold top, head. destruct (k <? 0)%Z eqn:E; [|reflexivity].
      apply Z.ltb_lt in E. lia. }
    rewrite isin_rows_exact; try assumption.
    + unfold labels. rewrite length_map, Hhead, length_firstn.
      rewrite (Permutation_length (sort_values_perm recs)). now rewrite Hlen.
    + rewrite Hhead. unfold labels. rewrite <- firstn_map.
      apply NoDup_firstn.
      apply (Permutation_NoDup
               (Permutation_sym (labels_perm (sort_values_perm recs)))).
      assumption.
    + intros l Hl. apply Hcover. apply top_labels_incl in Hl.
      apply Hlabels in Hl. unfold unheard_songs in Hl.
      now apply filter_In in Hl.
Qed.

Lemma recommend_exact_size_witness :
  exists frame,
    hybrid_recommend_songs 1 Examples.table2 (song_similarity_df Examples.table2)
                           Examples.songs2 1 []
    = (Returned frame, [])
    /\ List.length (song_rows frame)
       = Nat.min (Z.to_nat 1) (List.length (unheard_songs Examples.table2 1)).
Proof.
  apply (@recommend_exact_size reference 1 Examples.table2
           (song_similarity_df Examples.table2) Examples.songs2 1 []).
  - simpl. tauto.
  - reflexivity.
  - reflexivity.
  - simpl. repeat constructor; simpl; intuition discriminate.
  - simpl. repeat constructor; simpl; intuition discriminate.
  - apply incl_refl.
  - lia.
Defined.

(** * More on the similarity engine (lines 16-17) *)

Lemma div_zero_finite (n : float) :
  PrimFloat.is_finite (PrimFloat.div PrimFloat.zero n) = true ->
  exists s, Prim2SF (PrimFloat.div PrimFloat.zero n) = S754_zero s.
Proof.
  intros H. apply Float64.finite_cases in H. revert H.
  rewrite div_spec.
  change (Prim2SF PrimFloat.zero) with (S754_zero false).
  destruct (Prim2SF n) as [s|s| |s m e]; simpl;
    intros [[s' H]|[s' [m' [e' H]]]]; try discriminate H; eexists; reflexivity.
Qed.

Lemma mul_signed_zero_finite (z y : float) (s : bool) :
  Prim2SF z = S754_zero s ->
  PrimFloat.is_finite y = true ->
  exists s', Prim2SF (PrimFloat.mul z y) = S754_zero s'.
Proof.
  intros Hz Hy. rewrite mul_spec, Hz.
  destruct (Float64.finite_cases y Hy) as [[sy E]|[sy [m [e E]]]]; rewrite E;
    simpl; eexists; reflexivity.
Qed.

Lemma dot_disjoint (ni nj : float) (ci cj : Z -> float) (us : list Z) :
  (forall u, In u us -> ci u = PrimFloat.zero \/ cj u = PrimFloat.zero) ->
  (forall u, In u us ->
     PrimFloat.is_finite (PrimFloat.div (ci u) ni) = true
     /\ PrimFloat.is_finite (PrimFloat.div (cj u) nj) = true) ->
  dot_rows (map (fun x => PrimFloat.div x ni) (map ci us))
           (map (fun x => PrimFloat.div x nj) (map cj us))
  = PrimFloat.zero.
Proof.
  unfold dot_rows. induction us as [|u us IH]; intros Hdis Hfin; simpl.
  - reflexivity.
  - destruct (Hfin u (or_introl eq_refl)) as [Hi Hj].
    assert (Hz : exists s, Prim2SF (PrimFloat.mul (PrimFloat.div (ci u) ni)
                                                  (PrimFloat.div (cj u) nj))
                           = S754_zero s).
    { destruct (Hdis u (or_introl eq_refl)) as [E|E].
      - rewrite E in *.
        destruct (div_zero_finite ni Hi) as [s Hs].
        exact (@mul_signed_zero_finite _ _ s Hs Hj).
      - rewrite E in *.
        destruct (div_zero_finite nj Hj) as [s Hs].
        rewrite Float64.mul_comm. exact (@mul_signed_zero_finite _ _ s Hs Hi). }
    destruct Hz as [s Hs]. rewrite (Float64.add_zero_signed_zero _ Hs).
    apply IH; intros u' Hu'; [apply Hdis | apply Hfin]; now right.
Qed.

Lemma normalized_column_entries (pivot_table : DataFrame num) (i : Z) :
  exists n,
    normalized_column pivot_table i
    = map (fun x => PrimFloat.div x n)
          (map (fun u => to_float (cell pivot_table u i)) (index pivot_table)).
Proof.
  eexists. reflexivity.
Qed.

(** X9: two songs with no listener in common (every user has a zero count
    for one of them) have similarity exactly 0, whenever their normalised
    columns are finite. *)
Theorem disjoint_listeners_similarity_zero (pivot_table : DataFrame num) (i j : Z) :
  (forall u, In u (index pivot_table) ->
             to_float (cell pivot_table u i) = PrimFloat.zero
             \/ to_float (cell pivot_table u j) = PrimFloat.zero) ->
  Forall (fun y => PrimFloat.is_finite y = true) (normalized_column pivot_table i) ->
  Forall (fun y => PrimFloat.is_finite y = true) (normalized_column pivot_table j) ->
  cell (song_similarity_df pivot_table) i j = PrimFloat.zero.
Proof.
  intros Hdis Hi Hj.
  change (cell (song_similarity_df pivot_table) i j)
    with (dot_rows (normalized_column pivot_table i)
                   (normalized_column pivot_table j)).
  destruct (normalized_column_entries pivot_table i) as [ni Ei].
  destruct (normalized_column_entries pivot_table j) as [nj Ej].
  rewrite Ei, Ej in *.
  apply dot_disjoint; [assumption|].
  intros u Hu. rewrite Forall_forall in Hi, Hj. split.
  - apply Hi. rewrite map_map. apply in_map_iff. now exists u.
  - apply Hj. rewrite map_map. apply in_map_iff. now exists u.
Qed.

Lemma disjoint_listeners_similarity_zero_witness :
  cell (song_similarity_df Examples.table) 1 2 = PrimFloat.zero.
Proof.
  apply (@disjoint_listeners_similarity_zero Examples.table 1 2).
  - intros u [<-|[<-|[<-|[]]]]; vm_compute; tauto.
  - vm_compute. repeat constructor.
  - vm_compute. repeat constructor.
Defined.

(** * The preferences window (lines 104-146) *)

(** X10: for a user id that is no row of the table the preferences window
    is still shown; it holds the label "User <id> not found in the data."
    and no tree, nothing is printed and nothing is raised. *)
Theorem preferences_unknown_user {NP : Numpy}
    (user_id : Z) (pivot_table : DataFrame num) (songs_df : SongsFrame) (w : World) :
  ~ In user_id (index pivot_table) ->
  display_user_preferences user_id pivot_table songs_df w
  = Returned (mkWorld (printed w)
                      (shown w ++ [mkWindow "User Preferences"
                                            (Label (not_found_message user_id))])).
Proof.
  intros H. unfold display_user_preferences, top_preferences.
  rewrite (loc_unknown _ _ H). reflexivity.
Qed.

Lemma preferences_unknown_user_witness :
  display_user_preferences 9 Examples.table Examples.songs (mkWorld [] [])
  = Returned (mkWorld []
                      ([] ++ [mkWindow "User Preferences"
                                       (Label (not_found_message 9))])).
Proof.
  apply (@preferences_unknown_user reference 9 Examples.table Examples.songs
                                   (mkWorld [] [])).
  simpl. intros [H|[H|[H|[]]]]; discriminate H.
Defined.

Lemma top_preferences_known {NP : Numpy} (user_id : Z) (pivot_table : DataFrame num) :
  In user_id (index pivot_table) ->
  top_preferences user_id pivot_table
  = Returned (head 5 (sort_values_desc
                        (map (fun c => (c, to_float (cell pivot_table user_id c)))
                             (columns pivot_table)))).
Proof.
  intros H. unfold top_preferences. rewrite (loc_known _ _ H). simpl.
  unfold series_map. now rewrite map_map.
Qed.

Lemma tree_rows_length (df : SongsFrame) :
  List.length (tree_rows df) = List.length (song_rows df).
Proof.
  unfold tree_rows. apply length_map.
Qed.

(** X11: for a known user the preferences window holds a tree whose rows
    are rows of the catalog for songs of the table, in the order of the
    catalog; with distinct ids in the catalog there are at most five. *)
Theorem preferences_known_user {NP : Numpy}
    (user_id : Z) (pivot_table : DataFrame num) (songs_df : SongsFrame) (w : World) :
  In user_id (index pivot_table) ->
  exists ids,
    display_user_preferences user_id pivot_table songs_df w
    = Returned (mkWorld (printed w)
                        (shown w ++ [mkWindow "User Preferences"
                                       (Treeview song_headings
                                          (tree_rows (isin_rows songs_df ids)))]))
    /\ incl ids (columns pivot_table)
    /\ List.length ids <= 5
    /\ (NoDup (map song_id (song_rows songs_df)) ->
        List.length (tree_rows (isin_rows songs_df ids)) <= 5).
Proof.
  intros Hin.
  set (ranked := sort_values_desc
                   (map (fun c => (c, to_float (cell pivot_table user_id c)))
                        (columns pivot_table))).
  exists (labels (head 5 ranked)).
  assert (Hlen : List.length (labels (head 5 ranked)) <= 5).
  { unfold labels. rewrite length_map.
    pose proof (@head_length _ 5 ranked ltac:(lia)). lia. }
  repeat split.
  - unfold display_user_preferences.
    now rewrite (@top_preferences_known _ user_id pivot_table Hin).
  - intros l Hl. apply in_labels in Hl. destruct Hl as [v Hv].
    apply head_incl in Hv. now apply sorted_series_graph in Hv.
  - assumption.
  - intros Hnd. rewrite tree_rows_length.
    pose proof (@isin_rows_length songs_df (labels (head 5 ranked)) Hnd). lia.
Qed.

Lemma preferences_known_user_witness :
  exists ids,
    display_user_preferences 1 Examples.table2 Examples.songs2 (mkWorld [] [])
    = Returned (mkWorld []
                        ([] ++ [mkWindow "User Preferences"
                                  (Treeview song_headings
                                     (tree_rows (isin_rows Examples.songs2 ids)))]))
    /\ incl ids (columns Examples.table2)
    /\ List.length ids <= 5
    /\ (NoDup (map song_id (song_rows Examples.songs2)) ->
        List.length (tree_rows (isin_rows Examples.songs2 ids)) <= 5).
Proof.
  apply (@preferences_known_user reference 1 Examples.table2 Examples.songs2
                                 (mkWorld [] [])).
  simpl. tauto.
Defined.

Lemma mem_perm (l1 l2 : list Z) (x : Z) :
  Permutation l1 l2 -> mem x l1 = mem x l2.
Proof.
  intros H. destruct (mem x l2) eqn:E.
  - apply mem_In. apply mem_In in E.
    now apply (Permutation_in _ (Permutation_sym H)).
  - apply mem_false. apply mem_false in E. intros Hin. apply E.
    now apply (Permutation_in _ H).
Qed.

(** X12: the five "top preferences" are not restricted to songs the user
    has heard.  When the table has at most five songs, the window lists
    every catalog row of a song of the table, whatever the user's counts. *)
Theorem preferences_of_small_table {NP : Numpy}
    (user_id : Z) (pivot_table : DataFrame num) (songs_df : SongsFrame) (w : World) :
  In user_id (index pivot_table) ->
  List.length (columns pivot_table) <= 5 ->
  display_user_preferences user_id pivot_table songs_df w
  = Returned (mkWorld (printed w)
                      (shown w ++ [mkWindow "User Preferences"
                                     (Treeview song_headings
                                        (tree_rows (isin_rows songs_df
                                                      (columns pivot_table))))])).
Proof.
  intros Hin Hlen. unfold display_user_preferences.
  rewrite (@top_preferences_known _ user_id pivot_table Hin).
  set (ranked := sort_values_desc _).
  assert (Hperm : Permutation (labels ranked) (columns pivot_table)).
  { unfold ranked. rewrite (labels_perm (sort_values_perm _)).
    unfold labels. rewrite map_map. simpl. now rewrite map_id. }
  assert (Hall : head 5 ranked = ranked).
  { unfold head. change (5 <? 0)%Z with false. cbv iota.
    apply firstn_all2. change (Z.to_nat 5) with 5.
    rewrite <- (length_map fst ranked). fold (labels ranked).
    rewrite (Permutation_length Hperm). exact Hlen. }
  rewrite Hall.
  assert (Hrows : isin_rows songs_df (labels ranked)
                  = isin_rows songs_df (columns pivot_table)).
  { unfold isin_rows. f_equal. apply filter_ext. intros r. now apply mem_perm. }
  now rewrite Hrows.
Qed.

Lemma preferences_of_small_table_witness :
  display_user_preferences 1 Examples.table2 Examples.songs2 (mkWorld [] [])
  = Returned (mkWorld []
                      ([] ++ [mkWindow "User Preferences"
                                (Treeview song_headings
                                   (tree_rows (isin_rows Examples.songs2
                                                 (columns Examples.table2))))])).
Proof.
  apply (@preferences_of_small_table reference 1 Examples.table2 Examples.songs2
                                     (mkWorld [] [])).
  - simpl. tauto.
  - simpl. lia.
Defined.

(** * The script (lines 8-17 and 148-158) *)

Lemma sorted_unique_nonempty (x : Z) (l : list Z) :
  In x l -> sorted_unique l <> [].
Proof.
  intros H E. apply sorted_unique_In in H. rewrite E in H. destruct H.
Qed.

Lemma pivot_table_distinct (evs : list ListenEvent) :
  NoDup (map (fun e => (ev_user e, ev_song e)) evs) ->
  pivot_table evs
  = Returned (fillna 0 (mkFrame (sorted_unique (map ev_user evs))
                                (sorted_unique (map ev_song evs))
                                (fun u s => option_map (count_cell evs)
                                                       (event_count evs u s)))).
Proof.
  intros H. apply has_duplicates_NoDup in H.
  unfold pivot_table, pivot. now rewrite H.
Qed.

Lemma checked_similarity_nonempty (t : DataFrame num) :
  index t <> [] -> columns t <> [] ->
  checked_similarity t = Returned (song_similarity_df t).
Proof.
  intros Hi Hc. unfold checked_similarity.
  destruct (index t); [contradiction|]. destruct (columns t); [contradiction|].
  reflexivity.
Qed.

Lemma checked_similarity_of_events (evs : list ListenEvent) (e : ListenEvent)
    (cells : Z -> Z -> option num) :
  In e evs ->
  checked_similarity
    (fillna 0 (mkFrame (sorted_unique (map ev_user evs))
                       (sorted_unique (map ev_song evs))
                       cells))
  = Returned (song_similarity_df
                (fillna 0 (mkFrame (sorted_unique (map ev_user evs))
                                   (sorted_unique (map ev_song evs))
                                   cells))).
Proof.
  intros H. apply checked_similarity_nonempty; simpl.
  - apply (@sorted_unique_nonempty (ev_user e)). now apply in_map.
  - apply (@sorted_unique_nonempty (ev_song e)). now apply in_map.
Qed.

(** X13: a (user, song) pair that occurs twice in the listen history stops
    the script with ValueError before the dialog's answer is looked at:
    nothing is printed and no window is shown, whatever the answer. *)
Theorem script_stops_on_duplicate_pair {NP : Numpy}
    (history_df : list ListenEvent) (songs_df : SongsFrame) (input : option Z) :
  ~ NoDup (map (fun e => (ev_user e, ev_song e)) history_df) ->
  script history_df songs_df input = Raised ValueError.
Proof.
  intros H. unfold script, pivot_table, pivot.
  destruct (has_duplicates history_df) eqn:E; [reflexivity|].
  exfalso. apply H. now apply has_duplicates_NoDup.
Qed.

Lemma script_stops_on_duplicate_pair_witness :
  script [Examples.ev 1 10 2; Examples.ev 1 10 3] Examples.songs None
  = Raised ValueError.
Proof.
  apply (@script_stops_on_duplicate_pair reference
           [Examples.ev 1 10 2; Examples.ev 1 10 3] Examples.songs None).
  simpl. intros H. apply NoDup_cons_iff in H. destruct H as [H _].
  apply H. now left.
Defined.

(** X14: with a history that is not empty and has no duplicated pair, a
    cancelled dialog prints "User ID input was cancelled." and nothing else
    happens. *)
Theorem script_cancelled {NP : Numpy}
    (history_df : list ListenEvent) (songs_df : SongsFrame) (e : ListenEvent) :
  NoDup (map (fun e => (ev_user e, ev_song e)) history_df) ->
  In e history_df ->
  script history_df songs_df None
  = Returned (mkWorld ["User ID input was cancelled."%string] []).
Proof.
  intros Hnd He. unfold script.
  rewrite (@pivot_table_distinct history_df Hnd). simpl.
  now rewrite (checked_similarity_of_events history_df e _ He).
Qed.

Lemma script_cancelled_witness :
  script Examples.history Examples.songs None
  = Returned (mkWorld ["User ID input was cancelled."%string] []).
Proof.
  apply (@script_cancelled reference Examples.history Examples.songs
                           (Examples.ev 1 1 5)).
  - simpl. repeat constructor; simpl; intuition discriminate.
  - simpl. now left.
Defined.

(** X15: a user id without any listen event.  The preferences window shows
    the not-found label, then "User <id> not found in the data." and
    "No recommendations found." are printed, in this order, and no
    recommendation window is shown. *)
Theorem script_unknown_user {NP : Numpy}
    (history_df : list ListenEvent) (songs_df : SongsFrame) (user_id : Z)
    (e : ListenEvent) :
  NoDup (map (fun e => (ev_user e, ev_song e)) history_df) ->
  In e history_df ->
  (forall e', In e' history_df -> ev_user e' <> user_id) ->
  script history_df songs_df (Some user_id)
  = Returned
      (mkWorld [not_found_message user_id; "No recommendations found."%string]
               [mkWindow "User Preferences" (Label (not_found_message user_id))]).
Proof.
  intros Hnd He Hunknown. unfold script.
  rewrite (@pivot_table_distinct history_df Hnd). simpl.
  rewrite (checked_similarity_of_events history_df e _ He). simpl.
  set (t := fillna 0 _).
  assert (Hnot : ~ In user_id (index t)).
  { simpl. rewrite sorted_unique_In, in_map_iff.
    intros [e' [E Hin]]. now apply (Hunknown e' Hin). }
  unfold display_user_preferences, top_preferences.
  rewrite (loc_unknown _ _ Hnot). simpl.
  unfold hybrid_recommend_songs, top_songs, recommendations.
  rewrite (loc_unknown _ _ Hnot). reflexivity.
Qed.

Lemma script_unknown_user_witness :
  script Examples.history Examples.songs (Some 9%Z)
  = Returned
      (mkWorld [not_found_message 9; "No recommendations found."%string]
               [mkWindow "User Preferences" (Label (not_found_message 9))]).
Proof.
  apply (@script_unknown_user reference Examples.history Examples.songs 9
                              (Examples.ev 1 1 5)).
  - simpl. repeat constructor; simpl; intuition discriminate.
  - simpl. now left.
  - intros e' [<-|[<-|[<-|[<-|[<-|[]]]]]]; discriminate.
Defined.

(** X16: a user id with a listen event.  The preferences window shows a
    tree; then either the frame of recommendations has no row (or the
    catalog no column) and "No recommendations found." is the only line
    printed, or the recommendation window is shown with one tree row per
    returned record and nothing is printed.  The records are rows of the
    catalog.  "User ... not found" is never printed. *)
Theorem script_known_user {NP : Numpy}
    (history_df : list ListenEvent) (songs_df : SongsFrame) (user_id : Z)
    (e : ListenEvent) :
  NoDup (map (fun e => (ev_user e, ev_song e)) history_df) ->
  In e history_df ->
  ev_user e = user_id ->
  exists prefs frame,
    song_columns frame = song_columns songs_df
    /\ incl (song_rows frame) (song_rows songs_df)
    /\ script history_df songs_df (Some user_id)
       = Returned
           (if frame_empty frame
            then mkWorld ["No recommendations found."%string]
                         [mkWindow "User Preferences"
                                   (Treeview song_headings prefs)]
            else mkWorld []
                         [mkWindow "User Preferences"
                                   (Treeview song_headings prefs);
                          mkWindow "Recommended Songs"
                                   (Treeview song_headings (tree_rows frame))]).
Proof.
  intros Hnd He Huser. unfold script.
  rewrite (@pivot_table_distinct history_df Hnd). simpl.
  rewrite (checked_similarity_of_events history_df e _ He). simpl.
  set (t := fillna 0 _).
  assert (Hin : In user_id (index t)).
  { simpl. rewrite sorted_unique_In, in_map_iff. now exists e. }
  unfold display_user_preferences.
  rewrite (@top_preferences_known _ user_id t Hin). simpl.
  destruct (@recommendations_known _ user_id t (song_similarity_df t) Hin
              (incl_refl _)) as [recs Hrecs].
  unfold hybrid_recommend_songs, top_songs. rewrite Hrecs. simpl.
  exists (tree_rows
            (isin_rows songs_df
               (labels (head 5 (sort_values_desc
                                  (map (fun c => (c, to_float (cell t user_id c)))
                                       (columns t))))))),
         (isin_rows songs_df
            (labels (head default_num_recommendations (sort_values_desc recs)))).
  split; [reflexivity|]. split.
  - simpl. intros r Hr. now apply filter_In in Hr.
  - unfold display_recommendations, show.
    destruct (frame_empty _); reflexivity.
Qed.

Lemma script_known_user_witness :
  exists prefs frame,
    song_columns frame = song_columns Examples.songs
    /\ incl (song_rows frame) (song_rows Examples.songs)
    /\ script Examples.history Examples.songs (Some 1%Z)
       = Returned
           (if frame_empty frame
            then mkWorld ["No recommendations found."%string]
                         [mkWindow "User Preferences"
                                   (Treeview song_headings prefs)]
            else mkWorld []
                         [mkWindow "User Preferences"
                                   (Treeview song_headings prefs);
                          mkWindow "Recommended Songs"
                                   (Treeview song_headings (tree_rows frame))]).
Proof.
  apply (@script_known_user reference Examples.history Examples.songs 1
                            (Examples.ev 1 1 5)).
  - simpl. repeat constructor; simpl; intuition discriminate.
  - simpl. now left.
  - reflexivity.
Defined.
